(** * npm-statistic: a model of [src/npm-statistic.js] and its specification

    The program is a Node.js command line tool.  It keeps a configuration
    document in [config.json], answers [get] and [set] on dotted paths of
    that document, and prepares one statistics file per month.

    The development has four layers:
    - the values of the JavaScript run time the program manipulates
      (JSON values, property lookup and assignment, truthiness);
    - the JSON text codec ([JSON.parse], [JSON.stringify]);
    - the world the program acts on (files, console, clock), threaded
      through a state-and-exception monad;
    - the functions of the source file, in the order of the source. *)

From Stdlib Require Import ZArith NArith Ascii String.
From stdpp Require Import gmap strings list fin_maps pretty.

(** ** JavaScript values *)

(** The values that can occur at run time are the JSON values, [undefined],
    and arrays that an assignment has extended: an array carries its
    elements (a hole is [JUndefined]: the program never stores [undefined],
    so an element that reads [undefined] is an absent one) and its named,
    non-index properties.  Objects are finite maps from property names to
    values; the enumeration order of properties is not modelled.
    Numbers are the integers (the program does no arithmetic on document
    numbers); strings are sequences of 8-bit code units.  The texts on
    which this stands for what the program reads are delimited by
    [JSON.covered] below. *)
Unset Elimination Schemes.
Inductive value : Type :=
| JUndefined
| JNull
| JBool (b : bool)
| JNumber (n : Z)
| JString (s : string)
| JArray (elems : list value) (named : gmap string value)
| JObject (props : gmap string value).
Set Elimination Schemes.

Inductive error : Type :=
| TypeError
| RangeError
| SyntaxError
| SystemError (code : string).

(** The result of evaluating an expression: a value or a thrown exception. *)
Inductive completion (A : Type) : Type :=
| Normal (a : A)
| Throw (e : error).
Arguments Normal {A} a.
Arguments Throw {A} e.

#[global] Instance completion_ret : MRet completion := @Normal.
#[global] Instance completion_bind : MBind completion :=
  λ A B f c, match c with Normal a => f a | Throw e => Throw e end.

(** [ToBoolean]: the test behind [!x] and [x && y]. *)
Definition ToBoolean (v : value) : bool :=
  match v with
  | JUndefined | JNull => false
  | JBool b => b
  | JNumber n => negb (n =? 0)%Z
  | JString s => negb (String.eqb s EmptyString)
  | JArray _ _ | JObject _ => true
  end.

Definition typeof (v : value) : string :=
  match v with
  | JUndefined => "undefined"
  | JNull => "object"
  | JBool _ => "boolean"
  | JNumber _ => "number"
  | JString _ => "string"
  | JArray _ _ | JObject _ => "object"
  end.

(** *** Integer-indexed property names *)

Definition digit_value (c : ascii) : option N :=
  let n := N_of_ascii c in
  if ((48 <=? n) && (n <=? 57))%N then Some (n - 48)%N else None.

Fixpoint digits_value (s : string) (acc : N) : option N :=
  match s with
  | EmptyString => Some acc
  | String c r =>
      match digit_value c with
      | Some d => digits_value r (10 * acc + d)%N
      | None => None
      end
  end.

(** A property name is a canonical numeric index when it is the decimal
    notation of a natural number: digits only, no leading zero. *)
Definition CanonicalNumericIndex (key : string) : option N :=
  match key with
  | EmptyString => None
  | String "0" EmptyString => Some 0%N
  | String "0" _ => None
  | _ => digits_value key 0
  end.

(** An array index is a canonical numeric index below [2^32 - 1]. *)
Definition array_index (key : string) : option nat :=
  match CanonicalNumericIndex key with
  | Some n => if (n <? 4294967295)%N then Some (N.to_nat n) else None
  | None => None
  end.

Fixpoint string_get (i : nat) (s : string) : option ascii :=
  match s, i with
  | EmptyString, _ => None
  | String c _, O => Some c
  | String _ r, S i' => string_get i' r
  end.

(** *** Own properties *)

(** The own property [key] of the object that [v] converts to
    ([ToObject]): a string has its length and its characters, an array its
    length, its present elements and its named properties, an object its
    entries; numbers and booleans have none. *)
Definition own_property (v : value) (key : string) : option value :=
  match v with
  | JUndefined | JNull | JBool _ | JNumber _ => None
  | JString s =>
      if String.eqb key "length" then Some (JNumber (Z.of_nat (String.length s)))
      else match CanonicalNumericIndex key with
           | Some i =>
               match string_get (N.to_nat i) s with
               | Some c => Some (JString (String c EmptyString))
               | None => None
               end
           | None => None
           end
  | JArray elems named =>
      if String.eqb key "length" then Some (JNumber (Z.of_nat (length elems)))
      else match array_index key with
           | Some i =>
               match elems !! i with
               | Some JUndefined | None => None
               | Some x => Some x
               end
           | None => named !! key
           end
  | JObject props => props !! key
  end.

(** [Object.prototype.hasOwnProperty.call(v, key)]: throws on [null] and
    [undefined], which have no object to convert to. *)
Definition hasOwnProperty (v : value) (key : string) : completion bool :=
  match v with
  | JUndefined | JNull => Throw TypeError
  | _ => Normal (bool_decide (is_Some (own_property v key)))
  end.

(** [v[key]], for the keys the program reads: an own property, or a name
    that no built-in prototype defines ([packages], [name]), for which the
    lookup yields [undefined]. *)
Definition Get (v : value) (key : string) : completion value :=
  match v with
  | JUndefined | JNull => Throw TypeError
  | _ => Normal (default JUndefined (own_property v key))
  end.

(** ** The path resolver *)

Definition hasOwn := hasOwnProperty.

(** [getJsonPart(json, keys)]: the loop over [keys] is the recursion on the
    list; [value] is the first argument. *)
Fixpoint getJsonPart (json : value) (keys : list string) : completion value :=
  match keys with
  | [] => Normal json
  | key :: keys' =>
      if ToBoolean json then
        b ← hasOwn json key;
        if (b : bool) then value ← Get json key; getJsonPart value keys'
        else Normal JUndefined
      else Normal JUndefined
  end.

(** ** JSON text *)

Definition dquote : ascii := "034"%char.
Definition backslash : ascii := "092"%char.

Definition hex_digit (n : N) : ascii :=
  match n with
  | 0 => "0" | 1 => "1" | 2 => "2" | 3 => "3" | 4 => "4" | 5 => "5"
  | 6 => "6" | 7 => "7" | 8 => "8" | 9 => "9" | 10 => "a" | 11 => "b"
  | 12 => "c" | 13 => "d" | 14 => "e" | _ => "f"
  end%char%N.

(** [QuoteJSONString]: the two-character escapes, [\u00XX] for the other
    control characters, every other code unit as it is. *)
Definition escape_code_unit (c : ascii) : string :=
  let n := N_of_ascii c in
  if (n =? 8)%N then "\b"
  else if (n =? 9)%N then "\t"
  else if (n =? 10)%N then "\n"
  else if (n =? 12)%N then "\f"
  else if (n =? 13)%N then "\r"
  else if (n =? 34)%N then String backslash (String dquote EmptyString)
  else if (n =? 92)%N then String backslash (String backslash EmptyString)
  else if (n <? 32)%N then
    "\u00" +:+ String (hex_digit (n / 16)) (String (hex_digit (n mod 16)) EmptyString)
  else String c EmptyString.

Fixpoint escape_string (s : string) : string :=
  match s with
  | EmptyString => EmptyString
  | String c r => escape_code_unit c +:+ escape_string r
  end.

Definition QuoteJSONString (s : string) : string :=
  String dquote (escape_string s +:+ String dquote EmptyString).

Fixpoint join_with (sep : string) (l : list string) : string :=
  match l with
  | [] => EmptyString
  | [x] => x
  | x :: r => x +:+ sep +:+ join_with sep r
  end.

(** [Number::toString] of an integer: its decimal notation (the program
    prints it so below [10^21]; the numbers of a covered text are below
    [10^15]). *)
Definition NumberToString (n : Z) : string := pretty n.

Definition member_text (kt : string * string) : string :=
  QuoteJSONString kt.1 +:+ ":" +:+ kt.2.

(** [SerializeJSONProperty] without indentation: [undefined] has no text,
    it is [null] as an array element and is left out as an object entry;
    the named properties of an array are not serialized.  The members of
    an object come in the order of the map, which need not be the order
    in which the program enumerates them: of a text that is written, only
    what it parses to is meant. *)
Fixpoint SerializeJSONProperty (v : value) : option string :=
  match v with
  | JUndefined => None
  | JNull => Some "null"
  | JBool b => Some (if b then "true" else "false")
  | JNumber n => Some (NumberToString n)
  | JString s => Some (QuoteJSONString s)
  | JArray elems _ =>
      Some ("[" +:+
            join_with "," ((λ x, default "null" (SerializeJSONProperty x)) <$> elems)
            +:+ "]")
  | JObject props =>
      Some ("{" +:+
            join_with "," (member_text <$> map_to_list (omap SerializeJSONProperty props))
            +:+ "}")
  end.

Definition is_json_ws (c : ascii) : bool :=
  let n := N_of_ascii c in
  ((n =? 32) || (n =? 9) || (n =? 10) || (n =? 13))%N.

Fixpoint skip_ws (s : string) : string :=
  match s with
  | String c r => if is_json_ws c then skip_ws r else s
  | EmptyString => s
  end.

Definition hex_value (c : ascii) : option N :=
  let n := N_of_ascii c in
  if ((48 <=? n) && (n <=? 57))%N then Some (n - 48)%N
  else if ((97 <=? n) && (n <=? 102))%N then Some (n - 87)%N
  else if ((65 <=? n) && (n <=? 70))%N then Some (n - 55)%N
  else None.

Definition hex4 (a b c d : ascii) : option N :=
  match hex_value a, hex_value b, hex_value c, hex_value d with
  | Some x, Some y, Some z, Some w => Some (4096 * x + 256 * y + 16 * z + w)%N
  | _, _, _, _ => None
  end.

Definition unescape (e : ascii) : option ascii :=
  let n := N_of_ascii e in
  if (n =? 34)%N then Some dquote
  else if (n =? 92)%N then Some backslash
  else if (n =? 47)%N then Some "/"%char
  else if (n =? 98)%N then Some "008"%char
  else if (n =? 102)%N then Some "012"%char
  else if (n =? 110)%N then Some "010"%char
  else if (n =? 114)%N then Some "013"%char
  else if (n =? 116)%N then Some "009"%char
  else None.

Definition push_char (c : ascii) (r : option (string * string)) : option (string * string) :=
  match r with
  | Some (str, rest) => Some (String c str, rest)
  | None => None
  end.

(** The characters of a JSON string after its opening quote, up to and
    including the closing quote.  A [\uXXXX] escape above [00ff] is
    outside the 8-bit code units of the model and is refused (a text with
    such an escape is not [JSON.covered]). *)
Fixpoint parse_string (s : string) : option (string * string) :=
  match s with
  | EmptyString => None
  | String c r =>
      if Ascii.eqb c dquote then Some (EmptyString, r)
      else if Ascii.eqb c backslash then
        match r with
        | String e r1 =>
            if Ascii.eqb e "u" then
              match r1 with
              | String h1 (String h2 (String h3 (String h4 r2))) =>
                  match hex4 h1 h2 h3 h4 with
                  | Some n =>
                      if (n <? 256)%N then push_char (ascii_of_N n) (parse_string r2)
                      else None
                  | None => None
                  end
              | _ => None
              end
            else
              match unescape e with
              | Some c' => push_char c' (parse_string r1)
              | None => None
              end
        | EmptyString => None
        end
      else if (N_of_ascii c <? 32)%N then None
      else push_char c (parse_string r)
  end.

Fixpoint read_digits (s : string) (acc : N) : N * string :=
  match s with
  | String c r =>
      match digit_value c with
      | Some d => read_digits r (10 * acc + d)%N
      | None => (acc, s)
      end
  | EmptyString => (acc, s)
  end.

Definition starts_fraction (s : string) : bool :=
  match s with
  | String c _ => Ascii.eqb c "." || Ascii.eqb c "e" || Ascii.eqb c "E"
  | EmptyString => false
  end.

(** A JSON number: an optional minus sign, then [0] or a digit sequence
    without leading zero.  The model has integers only: a literal that
    goes on with a fraction or an exponent is refused (a text with such a
    number is not [JSON.covered]). *)
Definition parse_natural (s : string) : option (N * string) :=
  match s with
  | String c r =>
      match digit_value c with
      | Some d =>
          let '(n, rest) := if (d =? 0)%N then (0%N, r) else read_digits r d in
          if starts_fraction rest then None else Some (n, rest)
      | None => None
      end
  | EmptyString => None
  end.

Definition parse_number (s : string) : option (Z * string) :=
  match s with
  | String c r =>
      if Ascii.eqb c "-" then
        match parse_natural r with
        | Some (n, rest) => Some ((- Z.of_N n)%Z, rest)
        | None => None
        end
      else
        match parse_natural s with
        | Some (n, rest) => Some (Z.of_N n, rest)
        | None => None
        end
  | EmptyString => None
  end.

Fixpoint strip_prefix (p s : string) : option string :=
  match p, s with
  | EmptyString, _ => Some s
  | String a p', String b s' => if Ascii.eqb a b then strip_prefix p' s' else None
  | String _ _, EmptyString => None
  end.

Definition parse_literal (s : string) : option (value * string) :=
  match strip_prefix "null" s with
  | Some r => Some (JNull, r)
  | None =>
      match strip_prefix "true" s with
      | Some r => Some (JBool true, r)
      | None =>
          match strip_prefix "false" s with
          | Some r => Some (JBool false, r)
          | None => None
          end
      end
  end.

(** A value that is not an array or an object: a string, a literal name
    or a number. *)
Definition parse_scalar (s : string) : option (value * string) :=
  match s with
  | String c r =>
      if Ascii.eqb c dquote then
        match parse_string r with
        | Some (str, r') => Some (JString str, r')
        | None => None
        end
      else
        match parse_literal s with
        | Some res => Some res
        | None =>
            match parse_number s with
            | Some (n, r') => Some (JNumber n, r')
            | None => None
            end
        end
  | EmptyString => None
  end.

(** What follows a member or an element: a comma, the closing bracket,
    or anything else (an error). *)
Inductive separator : Type := Comma | Close | Other.

Definition next_separator (close : ascii) (s : string) : separator * string :=
  match skip_ws s with
  | String c r =>
      if Ascii.eqb c "," then (Comma, r)
      else if Ascii.eqb c close then (Close, r)
      else (Other, r)
  | EmptyString => (Other, EmptyString)
  end.

(** The recursive descent of [JSON.parse].  [fuel] bounds the number of
    nested calls; [JSON.parse] below supplies the length of the text,
    which is enough for every text.  A repeated member name keeps its
    last value. *)
Fixpoint parse_value (fuel : nat) (s : string) : option (value * string) :=
  match fuel with
  | O => None
  | S fuel' =>
      match s with
      | String c r =>
          if Ascii.eqb c "[" then
            match next_separator "]" r with
            | (Close, r') => Some (JArray [] ∅, r')
            | _ =>
                match parse_elements fuel' (skip_ws r) with
                | Some (vs, r') => Some (JArray vs ∅, r')
                | None => None
                end
            end
          else if Ascii.eqb c "{" then
            match next_separator "}" r with
            | (Close, r') => Some (JObject ∅, r')
            | _ =>
                match parse_members fuel' (skip_ws r) with
                | Some (kvs, r') => Some (JObject (list_to_map (reverse kvs)), r')
                | None => None
                end
            end
          else parse_scalar s
      | EmptyString => None
      end
  end
with parse_elements (fuel : nat) (s : string) : option (list value * string) :=
  match fuel with
  | O => None
  | S fuel' =>
      match parse_value fuel' s with
      | Some (v, r) =>
          match next_separator "]" r with
          | (Comma, r') =>
              match parse_elements fuel' (skip_ws r') with
              | Some (vs, r'') => Some (v :: vs, r'')
              | None => None
              end
          | (Close, r') => Some ([v], r')
          | (Other, _) => None
          end
      | None => None
      end
  end
with parse_members (fuel : nat) (s : string) : option (list (string * value) * string) :=
  match fuel with
  | O => None
  | S fuel' =>
      match s with
      | String c r =>
          if Ascii.eqb c dquote then
            match parse_string r with
            | Some (k, r1) =>
                match skip_ws r1 with
                | String c2 r2 =>
                    if Ascii.eqb c2 ":" then
                      match parse_value fuel' (skip_ws r2) with
                      | Some (v, r3) =>
                          match next_separator "}" r3 with
                          | (Comma, r4) =>
                              match parse_members fuel' (skip_ws r4) with
                              | Some (kvs, r5) => Some ((k, v) :: kvs, r5)
                              | None => None
                              end
                          | (Close, r4) => Some ([(k, v)], r4)
                          | (Other, _) => None
                          end
                      | None => None
                      end
                    else None
                | EmptyString => None
                end
            | None => None
            end
          else None
      | EmptyString => None
      end
  end.

(** *** The grammar of JSON, and the texts the model covers *)

(** The parser above reads a fragment of JSON.  The grammar in full is
    recognised below, with the same descent: numbers with their fraction
    and exponent, strings with every [\uXXXX] escape.  Each function
    returns the text after what it recognised. *)
Fixpoint grammar_digits (s : string) : string :=
  match s with
  | String c r =>
      match digit_value c with
      | Some _ => grammar_digits r
      | None => s
      end
  | EmptyString => s
  end.

(** One digit or more. *)
Definition grammar_digits1 (s : string) : option string :=
  match s with
  | String c r =>
      match digit_value c with
      | Some _ => Some (grammar_digits r)
      | None => None
      end
  | EmptyString => None
  end.

Definition grammar_fraction (s : string) : option string :=
  match s with
  | String c r => if Ascii.eqb c "." then grammar_digits1 r else Some s
  | EmptyString => Some s
  end.

Definition grammar_sign (s : string) : string :=
  match s with
  | String c r => if Ascii.eqb c "+" || Ascii.eqb c "-" then r else s
  | EmptyString => s
  end.

Definition grammar_exponent (s : string) : option string :=
  match s with
  | String c r =>
      if Ascii.eqb c "e" || Ascii.eqb c "E" then grammar_digits1 (grammar_sign r) else Some s
  | EmptyString => Some s
  end.

(** A number: an optional minus sign; zero, or digits without a leading
    zero; an optional fraction; an optional exponent. *)
Definition grammar_number (s : string) : option string :=
  let s1 :=
    match s with
    | String c r => if Ascii.eqb c "-" then r else s
    | EmptyString => s
    end in
  match s1 with
  | String c r =>
      match digit_value c with
      | Some d =>
          match grammar_fraction (if (d =? 0)%N then r else grammar_digits r) with
          | Some s2 => grammar_exponent s2
          | None => None
          end
      | None => None
      end
  | EmptyString => None
  end.

(** The characters of a string after its opening quote, up to and
    including the closing quote. *)
Fixpoint grammar_string (s : string) : option string :=
  match s with
  | EmptyString => None
  | String c r =>
      if Ascii.eqb c dquote then Some r
      else if Ascii.eqb c backslash then
        match r with
        | String e r1 =>
            if Ascii.eqb e "u" then
              match r1 with
              | String h1 (String h2 (String h3 (String h4 r2))) =>
                  match hex4 h1 h2 h3 h4 with
                  | Some _ => grammar_string r2
                  | None => None
                  end
              | _ => None
              end
            else
              match unescape e with
              | Some _ => grammar_string r1
              | None => None
              end
        | EmptyString => None
        end
      else if (N_of_ascii c <? 32)%N then None
      else grammar_string r
  end.

Definition grammar_scalar (s : string) : option string :=
  match s with
  | String c r =>
      if Ascii.eqb c dquote then grammar_string r
      else
        match parse_literal s with
        | Some (_, r') => Some r'
        | None => grammar_number s
        end
  | EmptyString => None
  end.

Fixpoint grammar_value (fuel : nat) (s : string) : option string :=
  match fuel with
  | O => None
  | S fuel' =>
      match s with
      | String c r =>
          if Ascii.eqb c "[" then
            match next_separator "]" r with
            | (Close, r') => Some r'
            | _ => grammar_elements fuel' (skip_ws r)
            end
          else if Ascii.eqb c "{" then
            match next_separator "}" r with
            | (Close, r') => Some r'
            | _ => grammar_members fuel' (skip_ws r)
            end
          else grammar_scalar s
      | EmptyString => None
      end
  end
with grammar_elements (fuel : nat) (s : string) : option string :=
  match fuel with
  | O => None
  | S fuel' =>
      match grammar_value fuel' s with
      | Some r =>
          match next_separator "]" r with
          | (Comma, r') => grammar_elements fuel' (skip_ws r')
          | (Close, r') => Some r'
          | (Other, _) => None
          end
      | None => None
      end
  end
with grammar_members (fuel : nat) (s : string) : option string :=
  match fuel with
  | O => None
  | S fuel' =>
      match s with
      | String c r =>
          if Ascii.eqb c dquote then
            match grammar_string r with
            | Some r1 =>
                match skip_ws r1 with
                | String c2 r2 =>
                    if Ascii.eqb c2 ":" then
                      match grammar_value fuel' (skip_ws r2) with
                      | Some r3 =>
                          match next_separator "}" r3 with
                          | (Comma, r4) => grammar_members fuel' (skip_ws r4)
                          | (Close, r4) => Some r4
                          | (Other, _) => None
                          end
                      | None => None
                      end
                    else None
                | EmptyString => None
                end
            | None => None
            end
          else None
      | EmptyString => None
      end
  end.

(** What the model does not represent: characters outside ASCII (a file
    is read as UTF-8, a string of the model is a sequence of 8-bit code
    units), escapes that stand for such characters, and numbers that a
    double may not hold exactly (here: with more than fifteen digits). *)
Fixpoint is_ascii (s : string) : bool :=
  match s with
  | EmptyString => true
  | String c r => (N_of_ascii c <? 128)%N && is_ascii r
  end.

Fixpoint ascii_escapes (s : string) : bool :=
  match s with
  | EmptyString => true
  | String c r =>
      if Ascii.eqb c backslash then
        match r with
        | String e r1 =>
            if Ascii.eqb e "u" then
              match r1 with
              | String h1 (String h2 (String h3 (String h4 r2))) =>
                  match hex4 h1 h2 h3 h4 with
                  | Some n => (n <? 128)%N && ascii_escapes r2
                  | None => false
                  end
              | _ => false
              end
            else ascii_escapes r1
        | EmptyString => true
        end
      else ascii_escapes r
  end.

(** No run of more than fifteen digits, [run] being the length of the run
    that ends before [s]. *)
Fixpoint short_numbers (run : nat) (s : string) : bool :=
  match s with
  | EmptyString => true
  | String c r =>
      match digit_value c with
      | Some _ => (run <? 15)%nat && short_numbers (S run) r
      | None => short_numbers 0 r
      end
  end.

Module JSON.

(** [JSON.parse(text)]: [None] when the text is refused.  On the texts
    that are [covered] below, [None] is the [SyntaxError] of the program
    and [Some v] is the value the program gets. *)
Definition parse (text : string) : option value :=
  match parse_value (String.length text) (skip_ws text) with
  | Some (v, rest) =>
      match skip_ws rest with
      | EmptyString => Some v
      | _ => None
      end
  | None => None
  end.

(** [JSON.stringify(v)]: [None] stands for the result [undefined]. *)
Definition stringify (v : value) : option string := SerializeJSONProperty v.

(** The texts of the JSON grammar: those on which the [JSON.parse] of the
    program does not throw a [SyntaxError]. *)
Definition well_formed (text : string) : bool :=
  match grammar_value (String.length text) (skip_ws text) with
  | Some rest =>
      match skip_ws rest with
      | EmptyString => true
      | _ => false
      end
  | None => false
  end.

(** The texts on which [parse] stands for the [JSON.parse] of the
    program: ASCII texts that are not JSON and are refused, and ASCII
    texts that are JSON, are read, and hold neither a number of more than
    fifteen digits nor an escape for a character outside ASCII.  JSON with
    a fraction or an exponent is well formed and refused: it is not
    covered, and nothing is stated about it. *)
Definition covered (text : string) : bool :=
  match well_formed text, parse text with
  | true, Some _ => is_ascii text && short_numbers 0 text && ascii_escapes text
  | false, None => is_ascii text
  | _, _ => false
  end.

End JSON.

(** ** Conversions used by assignment to an array length *)

Definition is_StrWhiteSpaceChar (c : ascii) : bool :=
  let n := N_of_ascii c in
  (((9 <=? n) && (n <=? 13)) || (n =? 32) || (n =? 160))%N.

Fixpoint skip_StrWhiteSpace (s : string) : string :=
  match s with
  | String c r => if is_StrWhiteSpaceChar c then skip_StrWhiteSpace r else s
  | EmptyString => s
  end.

(** [StringToNumber] on the integers of the model: white space around an
    optionally signed digit sequence, and the empty string, which is zero.
    [None] is [NaN]; the other numeric notations of JavaScript (fraction,
    exponent, hexadecimal, [Infinity]) are not integers of the model and
    are [None] as well: of an assignment of a string to the length of an
    array nothing is stated but for decimal integers. *)
Definition StringToNumber (s : string) : option Z :=
  match skip_StrWhiteSpace s with
  | EmptyString => Some 0%Z
  | s1 =>
      let '(neg, s2) :=
        match s1 with
        | String "-" r => (true, r)
        | String "+" r => (false, r)
        | _ => (false, s1)
        end in
      match s2 with
      | String c r =>
          match digit_value c with
          | Some d =>
              let '(n, rest) := read_digits r d in
              match skip_StrWhiteSpace rest with
              | EmptyString => Some (if neg then (- Z.of_N n)%Z else Z.of_N n)
              | _ => None
              end
          | None => None
          end
      | EmptyString => None
      end
  end.

Fixpoint sequence {A : Type} (l : list (completion A)) : completion (list A) :=
  match l with
  | [] => Normal []
  | c :: r => x ← c; xs ← sequence r; Normal (x :: xs)
  end.

(** [ToString]: an array is joined with commas ([null] and absent
    elements are empty), an object is [[object Object]]; a container whose
    own [toString] is a JSON value, hence not callable, cannot be
    converted. *)
Fixpoint ToString (v : value) : completion string :=
  match v with
  | JUndefined => Normal "undefined"
  | JNull => Normal "null"
  | JBool b => Normal (if b then "true" else "false")
  | JNumber n => Normal (NumberToString n)
  | JString s => Normal s
  | JArray elems named =>
      match named !! "toString", named !! "join" with
      | Some _, _ => Throw TypeError
      | None, Some _ => Normal "[object Array]"
      | None, None =>
          parts ← sequence
            ((λ x, match x with
                   | JUndefined | JNull => Normal EmptyString
                   | _ => ToString x
                   end) <$> elems);
          Normal (join_with "," parts)
      end
  | JObject props =>
      match props !! "toString" with
      | Some _ => Throw TypeError
      | None => Normal "[object Object]"
      end
  end.

(** [ToNumber], [None] for [NaN]. *)
Definition ToNumber (v : value) : completion (option Z) :=
  match v with
  | JUndefined => Normal None
  | JNull => Normal (Some 0%Z)
  | JBool b => Normal (Some (if b then 1%Z else 0%Z))
  | JNumber n => Normal (Some n)
  | JString s => Normal (StringToNumber s)
  | JArray _ _ | JObject _ => s ← ToString v; Normal (StringToNumber s)
  end.

(** ** Assignment *)

(** [ArraySetLength]: the new length must be an integer below [2^32];
    the array is truncated or extended with holes. *)
Definition ArraySetLength (elems : list value) (named : gmap string value)
    (v : value) : completion value :=
  n ← ToNumber v;
  match n with
  | Some len =>
      if ((0 <=? len) && (len <? 4294967296))%Z
      then Normal (JArray (resize (Z.to_nat len) JUndefined elems) named)
      else Throw RangeError
  | None => Throw RangeError
  end.

(** [obj[key] = v] in strict mode, returning the object after the
    assignment.  [__proto__] is an accessor of [Object.prototype]: unless
    the object has an own property of that name (which [JSON.parse] can
    create), the assignment reaches the setter, which changes no own
    property.  On an array, an index at or beyond the length extends the
    array with holes.  A primitive receiver throws. *)
Definition PutValue (obj : value) (key : string) (v : value) : completion value :=
  match obj with
  | JObject props =>
      if String.eqb key "__proto__" && bool_decide (props !! key = None)
      then Normal obj
      else Normal (JObject (<[key:=v]> props))
  | JArray elems named =>
      if String.eqb key "length" then ArraySetLength elems named v
      else match array_index key with
           | Some i =>
               if (i <? length elems)%nat
               then Normal (JArray (<[i:=v]> elems) named)
               else Normal (JArray (elems ++ replicate (i - length elems) JUndefined ++ [v]) named)
           | None =>
               if String.eqb key "__proto__" && bool_decide (named !! key = None)
               then Normal obj
               else Normal (JArray elems (<[key:=v]> named))
           end
  | _ => Throw TypeError
  end.

(** The document that [JSON.parse] returns is a tree without sharing, so
    an object of the document is identified by the path [keys] that leads
    to it: [getJsonPart(config, keys)] is a reference to the node at
    [keys], and a mutation through that reference rebuilds the document
    along [keys].  [replace_child] puts the mutated child back under its
    key. *)
Definition replace_child (parent : value) (key : string) (child : value) : value :=
  match parent with
  | JObject props => JObject (<[key:=child]> props)
  | JArray elems named =>
      match array_index key with
      | Some i => JArray (<[i:=child]> elems) named
      | None => JArray elems (<[key:=child]> named)
      end
  | _ => parent
  end.

Fixpoint mutate_at (json : value) (keys : list string)
    (f : value → completion value) : completion value :=
  match keys with
  | [] => f json
  | key :: keys' =>
      child ← Get json key;
      child' ← mutate_at child keys' f;
      Normal (replace_child json key child')
  end.

(** ** The world: file system, console, clock, issued requests *)

Record Date : Type := { getFullYear : Z; getMonth : Z }.

(** What a path of the file system holds.  Paths are compared as they are
    written, and a path written with a final slash is taken to lead to a
    directory when it leads anywhere.  The text of a file is the sequence
    of its bytes, which for an ASCII file is the string that the program
    reads from it. *)
Inductive node : Type :=
| File (text : string)
| Directory.

Inductive output : Type :=
| Log (line : string)
| Error (line : string).

Record world : Type := {
  disk : gmap string node;
  console : list output;
  requests : list string;
  clock : Date
}.

(** Computations that read and change the world and may throw. *)
Definition M (A : Type) : Type := world → completion A * world.

#[global] Instance M_ret : MRet M := λ A a w, (Normal a, w).
#[global] Instance M_bind : MBind M :=
  λ A B f m w, match m w with
               | (Normal a, w') => f a w'
               | (Throw e, w') => (Throw e, w')
               end.

Definition lift {A : Type} (c : completion A) : M A := λ w, (c, w).

(** [try { body } catch(e) { handler }] *)
Definition try_catch {A : Type} (body : M A) (handler : error → M A) : M A :=
  λ w, match body w with
       | (Normal a, w') => (Normal a, w')
       | (Throw e, w') => handler e w'
       end.

Definition set_disk (d : gmap string node) (w : world) : world :=
  {| disk := d; console := console w; requests := requests w; clock := clock w |}.

Definition print (o : output) : M unit :=
  λ w, (Normal (),
        {| disk := disk w; console := console w ++ [o];
           requests := requests w; clock := clock w |}).

Definition console_log (line : string) : M unit := print (Log line).
Definition console_error (line : string) : M unit := print (Error line).

(** [console.log(JSON.stringify(v))]: [undefined] prints as its name. *)
Definition show (text : option string) : string := default "undefined" text.

(** [new Date()] *)
Definition new_Date : M Date := λ w, (Normal (clock w), w).

(** [http.get(url, callback)]: the [http] module serves the [http:]
    protocol and refuses a URL of any other protocol with an error, before
    a request is made.  A request that is made is recorded; its response
    arrives after [npmStatistic] has returned. *)
Definition http_get (url : string) : M unit :=
  λ w, match strip_prefix "http:" url with
       | Some _ =>
           (Normal (),
            {| disk := disk w; console := console w;
               requests := requests w ++ [url]; clock := clock w |})
       | None => (Throw (SystemError "ERR_INVALID_PROTOCOL"), w)
       end.

Fixpoint has_slash (s : string) : bool :=
  match s with
  | EmptyString => false
  | String c r => Ascii.eqb c "/" || has_slash r
  end.

(** The directory part of a path: up to its last slash, empty for a name
    in the working directory. *)
Fixpoint dirname (path : string) : string :=
  match path with
  | EmptyString => EmptyString
  | String c r =>
      if Ascii.eqb c "/" || has_slash r then String c (dirname r) else EmptyString
  end.

Module fs.

(** [fs.accessSync(path)] *)
Definition accessSync (path : string) : M unit :=
  λ w, match disk w !! path with
       | Some _ => (Normal (), w)
       | None => (Throw (SystemError "ENOENT"), w)
       end.

(** [fs.mkdirSync(path)] *)
Definition mkdirSync (path : string) : M unit :=
  λ w, match disk w !! path with
       | Some _ => (Throw (SystemError "EEXIST"), w)
       | None => (Normal (), set_disk (<[path:=Directory]> (disk w)) w)
       end.

Definition is_directory (d : gmap string node) (path : string) : bool :=
  match d !! path with
  | Some Directory => true
  | _ => false
  end.

(** [fs.writeFileSync(path, data)]: the whole file is replaced; the
    directory of the path must exist. *)
Definition writeFileSync (path : string) (data : string) : M unit :=
  λ w, if is_directory (disk w) path then (Throw (SystemError "EISDIR"), w)
       else if String.eqb (dirname path) EmptyString || is_directory (disk w) (dirname path)
       then (Normal (), set_disk (<[path:=File data]> (disk w)) w)
       else (Throw (SystemError "ENOENT"), w).

(** [fs.readFileSync(path, 'utf8')] *)
Definition readFileSync (path : string) : M string :=
  λ w, match disk w !! path with
       | Some (File text) => (Normal text, w)
       | Some Directory => (Throw (SystemError "EISDIR"), w)
       | None => (Throw (SystemError "ENOENT"), w)
       end.

End fs.

(** ** The program *)

Definition UPDATE : string := "update".
Definition SET : string := "set".
Definition GET : string := "get".

Definition CONFIG : string := "config.json".
Definition STATS : string := "./stats/".

(** [writeJSON(name, data)] *)
Definition writeJSON (name : string) (data : value) : M unit :=
  match JSON.stringify data with
  | Some text => fs.writeFileSync name text
  | None => lift (Throw TypeError)
  end.

(** [readJSON(name)] *)
Definition readJSON (name : string) : M value :=
  try_catch
    (text ← fs.readFileSync name;
     match JSON.parse text with
     | Some v => mret v
     | None => lift (Throw SyntaxError)
     end)
    (λ e, mret JNull).

(** [s.split('.')]: never empty. *)
Fixpoint split (sep : ascii) (s : string) : list string :=
  match s with
  | EmptyString => [EmptyString]
  | String c r =>
      if Ascii.eqb c sep then EmptyString :: split sep r
      else match split sep r with
           | h :: t => String c h :: t
           | [] => [String c EmptyString]
           end
  end.

(** [keys.pop()] returns the last element and removes it from [keys]. *)
Definition pop (keys : list string) : string * list string :=
  (List.last keys EmptyString, removelast keys).

(** [COMMANDS[GET]] *)
Definition COMMANDS_GET (args : list string) (config : value) : M unit :=
  let keys :=
    match args with
    | [] => []
    | arg0 :: _ => split "." arg0
    end in
  part ← lift (getJsonPart config keys);
  console_log (show (JSON.stringify part)).

(** [COMMANDS[SET]]: [obj] is the node of [config] at [keys], so
    [obj[key] = value] is the mutation of [config] at [keys]. *)
Definition COMMANDS_SET (args : list string) (config : value) : M unit :=
  match args with
  | arg0 :: arg1 :: _ =>
      let '(key, keys) := pop (split "." arg0) in
      obj ← lift (getJsonPart config keys);
      if negb (ToBoolean obj) || negb (String.eqb (typeof obj) "object") then
        console_log ("Cannot set key " +:+ String dquote key +:+ String dquote " in "
                     +:+ String dquote (join_with "." keys) +:+ String dquote ".")
      else
        let value :=
          match JSON.parse arg1 with
          | Some v => v
          | None => JString arg1
          end in
        config' ← lift (mutate_at config keys (λ obj, PutValue obj key value));
        writeJSON CONFIG config'
  | _ => console_log "Not enough args."
  end.

(** [packages.map(callback)]: only an array has a callable [map]; absent
    elements are skipped and stay absent. *)
Definition Array_map (callback : value → completion value) (a : value) : completion (list value) :=
  match a with
  | JArray elems named =>
      match named !! "map" with
      | Some _ => Throw TypeError
      | None =>
          sequence ((λ x, match x with
                          | JUndefined => Normal JUndefined
                          | _ => callback x
                          end) <$> elems)
      end
  | _ => Throw TypeError
  end.

(** [updatePackage(name)]: the template converts [name] to a string; the
    handler of the [error] event is attached to what [http.get] returns. *)
Definition updatePackage (name : value) : M unit :=
  text ← lift (ToString name);
  http_get ("https://www.npmjs.com/package/" +:+ text).

Fixpoint for_of {A : Type} (l : list A) (body : A → M unit) : M unit :=
  match l with
  | [] => mret ()
  | x :: r => body x ;; for_of r body
  end.

(** [COMMANDS[UPDATE]] *)
Definition COMMANDS_UPDATE (args : list string) (config : value) : M unit :=
  p ← lift (Get config "packages");
  let packages := if ToBoolean p then p else JArray [] ∅ in
  names ← lift (Array_map (λ pack, Get pack "name") packages);
  for_of names updatePackage.

(** The table [COMMANDS]; [COMMANDS.hasOwnProperty(command)] is the
    presence of [command] in it. *)
Definition COMMANDS : gmap string (list string → value → M unit) :=
  {[ GET := COMMANDS_GET; SET := COMMANDS_SET; UPDATE := COMMANDS_UPDATE ]}.

(** [npmStatistic(args)] *)
Definition npmStatistic (args : list string) : M unit :=
  let '(command, args) :=
    match args with
    | [] => (UPDATE, [])
    | arg0 :: rest => (if String.eqb arg0 EmptyString then UPDATE else arg0, rest)
    end in
  try_catch (fs.accessSync CONFIG)
    (λ e, console_log ("Cannot find config (" +:+ String dquote CONFIG +:+ String dquote
                       "). Create new empty config.") ;;
          writeJSON CONFIG (JObject ∅)) ;;
  try_catch (fs.accessSync STATS) (λ e, fs.mkdirSync STATS) ;;
  config ← readJSON CONFIG;
  if negb (ToBoolean config) then
    console_error ("Wrong config format (in " +:+ String dquote CONFIG +:+ String dquote ").")
  else
    match COMMANDS !! command with
    | None =>
        console_error ("Unknown command: " +:+ String dquote command +:+ String dquote ".")
    | Some handler => handler args config
    end.

(** [getStatName()]; [month] is a number below ten and a string after the
    padding, the template converts both to text. *)
Definition getStatName : M string :=
  now ← new_Date;
  let year := getFullYear now in
  let month := (getMonth now + 1)%Z in
  let month :=
    if (month <? 10)%Z then "0" +:+ NumberToString month else NumberToString month in
  mret (month +:+ "." +:+ NumberToString year +:+ ".json").

Definition ServerResponse : Type := unit.

(** [parseRes(res)] *)
Definition parseRes (res : ServerResponse) : value :=
  JObject {[ "name" := JString "next-task" ]}.

(** [updateCallback(res)], returning its locals [stat] and [packages]. *)
Definition updateCallback (res : ServerResponse) : M (value * value) :=
  let pack := parseRes res in
  name ← getStatName;
  let statName := STATS +:+ name in
  try_catch (fs.accessSync statName)
    (λ e, writeJSON statName (JObject {[ "packages" := JArray [] ∅ ]})) ;;
  stat ← readJSON statName;
  packages ← lift (Get stat "packages");
  mret (stat, packages).

(** ** Vocabulary of the properties *)

Definition is_container (v : value) : bool :=
  match v with
  | JArray _ _ | JObject _ => true
  | _ => false
  end.

(** *** Running the start-up of [npmStatistic] *)
Definition empty_config_notice : output :=
  Log ("Cannot find config (" +:+ String dquote CONFIG +:+ String dquote
       "). Create new empty config.").

(** The world after the two start-up checks of [npmStatistic]: a missing
    [config.json] is created as the empty object, a missing [./stats/]
    directory is created. *)
Definition booted (w : world) : world :=
  let w1 :=
    match disk w !! CONFIG with
    | Some _ => w
    | None =>
        {| disk := <[CONFIG:=File "{}"]> (disk w);
           console := console w ++ [empty_config_notice];
           requests := requests w; clock := clock w |}
    end in
  match disk w1 !! STATS with
  | Some _ => w1
  | None => set_disk (<[STATS:=Directory]> (disk w1)) w1
  end.

(** The command that an invocation runs: [update] when there is no
    first argument or it is empty. *)
Definition command_of (args : list string) : string :=
  match args with
  | [] => UPDATE
  | arg0 :: _ => if String.eqb arg0 EmptyString then UPDATE else arg0
  end.

(** The configuration file, when there is one, holds a text that the
    model of [JSON.parse] covers. *)
Definition config_covered (w : world) : bool :=
  match disk w !! CONFIG with
  | Some (File text) => JSON.covered text
  | _ => true
  end.

Definition wrong_config : output :=
  Error ("Wrong config format (in " +:+ String dquote CONFIG +:+ String dquote ").").

Definition unknown_command (command : string) : output :=
  Error ("Unknown command: " +:+ String dquote command +:+ String dquote ".").

(** What [readJSON] returns on a given file system. *)
Definition loaded (name : string) (d : gmap string node) : value :=
  match d !! name with
  | Some (File text) => default JNull (JSON.parse text)
  | _ => JNull
  end.

Definition startup : M unit :=
  try_catch (fs.accessSync CONFIG)
    (λ e, console_log ("Cannot find config (" +:+ String dquote CONFIG +:+ String dquote
                       "). Create new empty config.") ;;
          writeJSON CONFIG (JObject ∅)) ;;
  try_catch (fs.accessSync STATS) (λ e, fs.mkdirSync STATS).


Definition fresh_world : world :=
  {| disk := ∅; console := []; requests := [];
     clock := {| getFullYear := 2024; getMonth := 2 |} |}.

(** A world whose working directory holds [config.json] with the given
    text and the [./stats/] directory. *)
Definition world_with_config (text : string) : world :=
  {| disk := {[ CONFIG := File text; STATS := Directory ]};
     console := []; requests := [];
     clock := {| getFullYear := 2024; getMonth := 2 |} |}.

(** The text after a number does not continue it. *)
Definition number_ends (rest : string) : bool :=
  match rest with
  | EmptyString => true
  | String c _ =>
      match digit_value c with
      | Some _ => false
      | None => negb (starts_fraction rest)
      end
  end.

(** The first character of the text of a value. *)
Definition value_start (c : ascii) : bool :=
  Ascii.eqb c dquote || Ascii.eqb c "[" || Ascii.eqb c "{" || Ascii.eqb c "n"
  || Ascii.eqb c "t" || Ascii.eqb c "f" || Ascii.eqb c "-"
  || match digit_value c with Some _ => true | None => false end.

Definition starts_value (s : string) : Prop :=
  match s with
  | String c _ => value_start c = true
  | EmptyString => False
  end.

(** The text of a value, for the element of an array. *)
Definition element_text (x : value) : string := default "null" (SerializeJSONProperty x).

Definition is_scalar (v : value) : bool :=
  match v with
  | JNull | JBool _ | JNumber _ | JString _ => true
  | _ => false
  end.

(** The document that [JSON.parse(JSON.stringify(v))] yields: named
    properties of arrays are lost, absent elements become [null], absent
    entries are left out. *)
Fixpoint persisted (v : value) : value :=
  match v with
  | JArray elems _ =>
      JArray ((λ x, match x with JUndefined => JNull | _ => persisted x end) <$> elems) ∅
  | JObject props =>
      JObject (omap (λ x, match x with JUndefined => None | _ => Some (persisted x) end) props)
  | _ => v
  end.

Definition persisted_element (x : value) : value :=
  match x with JUndefined => JNull | _ => persisted x end.

Definition persisted_entry (x : value) : option value :=
  match x with JUndefined => None | _ => Some (persisted x) end.

Definition entry_text (kv : string * value) : string :=
  member_text (kv.1, element_text kv.2).

(** The values of JSON proper: no [undefined] anywhere, no named
    property on an array.  These are the values [JSON.parse] returns. *)
Inductive is_json : value → Prop :=
| json_null : is_json JNull
| json_bool b : is_json (JBool b)
| json_number n : is_json (JNumber n)
| json_string s : is_json (JString s)
| json_array elems : (∀ x, x ∈ elems → is_json x) → is_json (JArray elems ∅)
| json_object props : (∀ k x, props !! k = Some x → is_json x) → is_json (JObject props).

(** The value that [set] assigns for the raw argument [raw]. *)
Definition assigned_value (raw : string) : value :=
  match JSON.parse raw with
  | Some v => v
  | None => JString raw
  end.

(** A number that can be the length of an array. *)
Definition is_array_length (v : value) : bool :=
  match v with
  | JNumber n => ((0 <=? n) && (n <? 4294967296))%Z
  | _ => false
  end.

(** The assignments that are found again in the file: to an entry of an
    object (to the name [__proto__] only when the object has an entry of
    that name), to an element of an array, and of a valid length to the
    length of an array. *)
Definition persists (obj : value) (key : string) (v : value) : bool :=
  match obj with
  | JObject props =>
      negb (String.eqb key "__proto__") || bool_decide (is_Some (props !! key))
  | JArray _ _ =>
      bool_decide (is_Some (array_index key))
      || (String.eqb key "length" && is_array_length v)
  | _ => false
  end.

(** The assignments that are found again in memory: the above, and those
    to a named property of an array. *)
Definition stores (obj : value) (key : string) (v : value) : bool :=
  match obj with
  | JArray _ named =>
      persists obj key v
      || (negb (String.eqb key "length")
          && (negb (String.eqb key "__proto__") || bool_decide (is_Some (named !! key))))
  | _ => persists obj key v
  end.


Definition is_array (v : value) : bool :=
  match v with
  | JArray _ _ => true
  | _ => false
  end.

(** The statistics document of a month without statistics yet, and its
    text. *)
Definition empty_statistics : value := JObject {[ "packages" := JArray [] ∅ ]}.

Definition empty_statistics_text : string := "{" +:+ QuoteJSONString "packages" +:+ ":[]}".

Definition march_2024 : world :=
  {| disk := {[ STATS := Directory ]}; console := []; requests := [];
     clock := {| getFullYear := 2024; getMonth := 2 |} |}.

Definition december_2024 : world :=
  {| disk := {[ STATS := Directory ]}; console := []; requests := [];
     clock := {| getFullYear := 2024; getMonth := 11 |} |}.

(** A configuration with an array and a number, [{a: [10], b: 7}], and
    one with a package to follow. *)
Definition sample_config_text : string :=
  "{" +:+ QuoteJSONString "a" +:+ ":[10]," +:+ QuoteJSONString "b" +:+ ":7}".

Definition sample_config : value :=
  JObject {[ "a" := JArray [JNumber 10] ∅; "b" := JNumber 7 ]}.

Definition packages_config_text : string :=
  "{" +:+ QuoteJSONString "packages" +:+ ":[{" +:+ QuoteJSONString "name" +:+ ":"
  +:+ QuoteJSONString "left-pad" +:+ "}]}".

(** *** Vocabulary of the further properties *)

(** The keys that [get] resolves for its arguments. *)
Definition get_keys (args : list string) : list string :=
  match args with
  | [] => []
  | arg0 :: _ => split "." arg0
  end.

(** The world after the start-up in a directory that has neither
    [config.json] nor [./stats/]. *)
Definition bootstrapped (w : world) : world :=
  {| disk := <[STATS:=Directory]> (<[CONFIG:=File "{}"]> (disk w));
     console := console w ++ [empty_config_notice];
     requests := requests w; clock := clock w |}.

Definition not_enough_args : output := Log "Not enough args.".

(** A world whose [./stats/] directory holds the statistics file of March
    2024 with the given text. *)
Definition march_2024_with (text : string) : world :=
  {| disk := {[ STATS := Directory; STATS +:+ "03.2024.json" := File text ]};
     console := []; requests := [];
     clock := {| getFullYear := 2024; getMonth := 2 |} |}.

(** A world without the [./stats/] directory. *)
Definition no_statistics_directory : world :=
  {| disk := {[ CONFIG := File "{}" ]}; console := []; requests := [];
     clock := {| getFullYear := 2024; getMonth := 2 |} |}.

(** A world in which [config.json] is a directory. *)
Definition config_is_directory : world :=
  {| disk := {[ CONFIG := Directory; STATS := Directory ]}; console := []; requests := [];
     clock := {| getFullYear := 2024; getMonth := 2 |} |}.

(** The path holds a regular file. *)
Definition is_regular_file (d : gmap string node) (path : string) : bool :=
  match d !! path with
  | Some (File _) => true
  | _ => false
  end.

(** What the start-up prints: the notice, when [config.json] is missing. *)
Definition startup_output (w : world) : list output :=
  match disk w !! CONFIG with
  | Some _ => []
  | None => [empty_config_notice]
  end.

Definition is_null (v : value) : bool :=
  match v with
  | JNull => true
  | _ => false
  end.

(** Configurations for [update]: one whose [packages] is not an array,
    [{packages: 5}], and one with an entry that is [null] after a proper
    one, [{packages: [{name: "left-pad"}, null]}]. *)
Definition number_packages_text : string :=
  "{" +:+ QuoteJSONString "packages" +:+ ":5}".

Definition null_package_text : string :=
  "{" +:+ QuoteJSONString "packages" +:+ ":[{" +:+ QuoteJSONString "name" +:+ ":"
  +:+ QuoteJSONString "left-pad" +:+ "},null]}".

Definition left_pad : value := JObject {[ "name" := JString "left-pad" ]}.


(** * Properties *)

Lemma hasOwn_truthy json key :
  ToBoolean json = true →
  hasOwn json key = Normal (bool_decide (is_Some (own_property json key))).
Proof. by destruct json. Qed.

Lemma Get_truthy json key :
  ToBoolean json = true →
  Get json key = Normal (default JUndefined (own_property json key)).
Proof. by destruct json. Qed.

Lemma getJsonPart_cons json key keys :
  getJsonPart json (key :: keys) =
  if ToBoolean json then
    match own_property json key with
    | Some child => getJsonPart child keys
    | None => Normal JUndefined
    end
  else Normal JUndefined.
Proof.
  simpl. destruct (ToBoolean json) eqn:Ht; [|done].
  rewrite hasOwn_truthy, Get_truthy by done. simpl.
  by destruct (own_property json key) as [child|].
Qed.

Lemma getJsonPart_total keys : ∀ json, ∃ v, getJsonPart json keys = Normal v.
Proof.
  induction keys as [|key keys IH]; intros json; [by eexists|].
  rewrite getJsonPart_cons.
  destruct (ToBoolean json); [|by eexists].
  destruct (own_property json key); [apply IH|by eexists].
Qed.

Lemma readJSON_loaded name w : readJSON name w = (Normal (loaded name (disk w)), w).
Proof.
  unfold readJSON, loaded, try_catch, fs.readFileSync, mbind, M_bind, mret, M_ret, lift.
  destruct (disk w !! name) as [[text|]|]; [|done..].
  by destruct (JSON.parse text).
Qed.

Lemma world_eta w :
  {| disk := disk w; console := console w; requests := requests w; clock := clock w |} = w.
Proof. by destruct w. Qed.

Lemma set_disk_same w : set_disk (disk w) w = w.
Proof. by destruct w. Qed.

Lemma stringify_empty_object : JSON.stringify (JObject ∅) = Some "{}".
Proof. reflexivity. Qed.

Lemma startup_booted w : startup w = (Normal (), booted w).
Proof.
  unfold startup, booted, try_catch, fs.accessSync, fs.mkdirSync, mbind, M_bind.
  destruct (disk w !! CONFIG) as [n|] eqn:Hc.
  - destruct (disk w !! STATS) eqn:Hs; [done|]. by rewrite Hs.
  - unfold writeJSON. rewrite stringify_empty_object.
    unfold console_log, print, fs.writeFileSync.
    cbn [disk console requests clock]. unfold fs.is_directory at 1. rewrite Hc.
    change (dirname CONFIG) with EmptyString.
    cbn [String.eqb orb].
    unfold set_disk; cbn [disk console requests clock].
    destruct (<[CONFIG:=File "{}"]> (disk w) !! STATS) eqn:Hs; [done|].
    cbn [disk console requests clock]. by rewrite Hs.
Qed.

Lemma M_bind_assoc {A B C : Type} (m : M A) (f : A → M B) (g : B → M C) w :
  (m ≫= (λ x, f x ≫= g)) w = ((m ≫= f) ≫= g) w.
Proof.
  unfold mbind, M_bind. destruct (m w) as [[a|e] w']; [|done].
  done.
Qed.

Lemma npmStatistic_run args w :
  npmStatistic args w =
  let command :=
    match args with
    | [] => UPDATE
    | arg0 :: _ => if String.eqb arg0 EmptyString then UPDATE else arg0
    end in
  let config := loaded CONFIG (disk (booted w)) in
  if negb (ToBoolean config) then print wrong_config (booted w)
  else match (COMMANDS !! command : option (list string → value → M unit)) with
       | None => print (unknown_command command) (booted w)
       | Some handler => handler (tail args) config (booted w)
       end.
Proof.
  assert (∀ command args',
    ((startup ;;
     config ← readJSON CONFIG;
     if negb (ToBoolean config) then
       console_error ("Wrong config format (in " +:+ String dquote CONFIG +:+ String dquote ").")
     else
       match (COMMANDS !! command : option (list string → value → M unit)) with
       | None =>
           console_error ("Unknown command: " +:+ String dquote command +:+ String dquote ".")
       | Some handler => handler args' config
       end) : M unit) w =
    if negb (ToBoolean (loaded CONFIG (disk (booted w)))) then print wrong_config (booted w)
    else match (COMMANDS !! command : option (list string → value → M unit)) with
         | None => print (unknown_command command) (booted w)
         | Some handler => handler args' (loaded CONFIG (disk (booted w))) (booted w)
         end) as Hrun.
  { intros command args'. unfold mbind at 1, M_bind at 1. rewrite startup_booted.
    unfold mbind, M_bind. rewrite readJSON_loaded.
    destruct (negb _); [reflexivity|]. by destruct (COMMANDS !! command). }
  unfold npmStatistic.
  destruct args as [|arg0 rest]; rewrite M_bind_assoc; apply Hrun.
Qed.

Lemma npmStatistic_run_command command args w :
  command ≠ EmptyString →
  npmStatistic (command :: args) w =
  let config := loaded CONFIG (disk (booted w)) in
  if negb (ToBoolean config) then print wrong_config (booted w)
  else match (COMMANDS !! command : option (list string → value → M unit)) with
       | None => print (unknown_command command) (booted w)
       | Some handler => handler args config (booted w)
       end.
Proof.
  intros Hne. rewrite npmStatistic_run. cbn zeta. cbn [tail].
  by rewrite (proj2 (String.eqb_neq command EmptyString) Hne).
Qed.

Lemma COMMANDS_GET_lookup : COMMANDS !! GET = Some COMMANDS_GET.
Proof. reflexivity. Qed.
Lemma COMMANDS_SET_lookup : COMMANDS !! SET = Some COMMANDS_SET.
Proof. reflexivity. Qed.
Lemma COMMANDS_UPDATE_lookup : COMMANDS !! UPDATE = Some COMMANDS_UPDATE.
Proof. reflexivity. Qed.
Lemma COMMANDS_unknown command :
  command ≠ GET → command ≠ SET → command ≠ UPDATE → COMMANDS !! command = None.
Proof.
  intros ???. unfold COMMANDS.
  rewrite !lookup_insert_ne by done. by rewrite lookup_singleton_ne.
Qed.

Lemma booted_with_config w text :
  disk w !! CONFIG = Some (File text) →
  disk (booted w) !! CONFIG = Some (File text)
  ∧ (∀ path, path ≠ STATS → disk (booted w) !! path = disk w !! path)
  ∧ console (booted w) = console w
  ∧ requests (booted w) = requests w
  ∧ clock (booted w) = clock w.
Proof.
  intros Hc. unfold booted. rewrite Hc.
  destruct (disk w !! STATS) eqn:Hs; [done|].
  cbn [set_disk disk console requests clock].
  rewrite lookup_insert_ne by done.
  repeat split; try done. intros path Hne. by rewrite lookup_insert_ne.
Qed.

Lemma booted_idle w :
  is_Some (disk w !! CONFIG) → is_Some (disk w !! STATS) → booted w = w.
Proof. intros [? Hc] [? Hs]. unfold booted. by rewrite Hc, Hs. Qed.

Lemma booted_frame w :
  requests (booted w) = requests w ∧ clock (booted w) = clock w.
Proof.
  unfold booted.
  destruct (disk w !! CONFIG); cbn [disk]; destruct (_ !! STATS); done.
Qed.


Lemma loaded_with_config (d : gmap string node) text :
  d !! CONFIG = Some (File text) → loaded CONFIG d = default JNull (JSON.parse text).
Proof. unfold loaded. by intros ->. Qed.

Lemma target_check obj :
  negb (ToBoolean obj) || negb (String.eqb (typeof obj) "object") = negb (is_container obj).
Proof. destruct obj as [| |[]|n|s| |]; try done; cbn; by destruct (negb _). Qed.

Lemma scalar_stays_scalar keys : ∀ json obj,
  is_container json = false → getJsonPart json keys = Normal obj → is_container obj = false.
Proof.
  induction keys as [|key keys IH]; intros json obj Hs Hget.
  - by injection Hget as <-.
  - rewrite getJsonPart_cons in Hget.
    destruct (ToBoolean json); [|by injection Hget as <-].
    destruct (own_property json key) as [child|] eqn:Hown; [|by injection Hget as <-].
    apply (IH child); [|done].
    destruct json as [| |b|n|s|elems named|props]; try done.
    cbn in Hown. destruct (String.eqb key "length"); [by injection Hown as <-|].
    destruct (CanonicalNumericIndex key); [|done].
    destruct (string_get _ s); [|done]. by injection Hown as <-.
Qed.

Lemma COMMANDS_inv command handler :
  COMMANDS !! command = Some handler →
  handler = COMMANDS_GET ∨ handler = COMMANDS_SET ∨ handler = COMMANDS_UPDATE.
Proof.
  destruct (decide (command = GET)) as [->|?];
    [rewrite COMMANDS_GET_lookup; intros [= <-]; auto|].
  destruct (decide (command = SET)) as [->|?];
    [rewrite COMMANDS_SET_lookup; intros [= <-]; auto|].
  destruct (decide (command = UPDATE)) as [->|?];
    [rewrite COMMANDS_UPDATE_lookup; intros [= <-]; auto|].
  by rewrite COMMANDS_unknown.
Qed.

Lemma scalar_has_no_packages config :
  is_container config = false → ToBoolean config = true →
  Get config "packages" = Normal JUndefined.
Proof. destruct config as [| |b|n|s| |]; done. Qed.

Lemma handler_on_scalar handler args config w :
  handler = COMMANDS_GET ∨ handler = COMMANDS_SET ∨ handler = COMMANDS_UPDATE →
  is_container config = false → ToBoolean config = true →
  ∃ w', handler args config w = (Normal (), w')
        ∧ disk w' = disk w ∧ requests w' = requests w.
Proof.
  intros [->|[->| ->]] Hs Ht.
  - unfold COMMANDS_GET, mbind, M_bind, lift.
    destruct (getJsonPart_total
                match args with [] => [] | arg0 :: _ => split "." arg0 end config)
      as [part ->].
    by eexists.
  - unfold COMMANDS_SET. destruct args as [|arg0 [|arg1 rest]]; try by eexists.
    destruct (pop (split "." arg0)) as [key keys].
    destruct (getJsonPart_total keys config) as [obj Hobj].
    unfold mbind, M_bind, lift. rewrite Hobj, target_check.
    rewrite (scalar_stays_scalar keys config obj Hs Hobj). by eexists.
  - unfold COMMANDS_UPDATE, mbind, M_bind, lift.
    rewrite scalar_has_no_packages by done. by eexists.
Qed.

(** *** Canonical indices *)



Lemma append_cons c s t : String c s +:+ t = String c (s +:+ t).
Proof. reflexivity. Qed.

Lemma append_empty_l t : EmptyString +:+ t = t.
Proof. reflexivity. Qed.

Lemma append_empty_r s : s +:+ EmptyString = s.
Proof. induction s as [|a s IH]; [done|]. by rewrite append_cons, IH. Qed.

Lemma append_assoc s t u : (s +:+ t) +:+ u = s +:+ t +:+ u.
Proof. induction s as [|a s IH]; [done|]. by rewrite !append_cons, IH. Qed.

Lemma length_append s t : String.length (s +:+ t) = String.length s + String.length t.
Proof. induction s as [|a s IH]; [done|]. rewrite append_cons. simpl. by rewrite IH. Qed.





(** *** Mutation at a path *)

Lemma container_truthy v : is_container v = true → ToBoolean v = true.
Proof. by destruct v. Qed.

Lemma container_defined v : is_container v = true → v ≠ JUndefined.
Proof. by destruct v. Qed.

Lemma resolves_cons json key keys obj :
  getJsonPart json (key :: keys) = Normal obj → is_container obj = true →
  is_container json = true
  ∧ ∃ child, own_property json key = Some child
             ∧ is_container child = true
             ∧ getJsonPart child keys = Normal obj.
Proof.
  intros Hget Hobj.
  assert (is_container json = true) as Hc.
  { destruct (is_container json) eqn:E; [done|].
    rewrite (scalar_stays_scalar _ _ _ E Hget) in Hobj. done. }
  split; [done|].
  rewrite getJsonPart_cons, (container_truthy _ Hc) in Hget.
  destruct (own_property json key) as [child|]; [|by injection Hget as <-].
  exists child. split; [done|]. split; [|done].
  destruct (is_container child) eqn:E; [done|].
  rewrite (scalar_stays_scalar _ _ _ E Hget) in Hobj. done.
Qed.

Lemma replace_child_container json key child :
  is_container json = true → is_container (replace_child json key child) = true.
Proof. destruct json; try done. simpl. by destruct (array_index key). Qed.

Lemma array_lookup_defined (elems : list value) i child :
  match elems !! i with
  | Some JUndefined | None => None
  | Some x => Some x
  end = Some child →
  elems !! i = Some child ∧ child ≠ JUndefined.
Proof. destruct (elems !! i) as [[]|]; naive_solver. Qed.

Lemma array_lookup_defined_2 (elems : list value) i child :
  elems !! i = Some child → child ≠ JUndefined →
  match elems !! i with
  | Some JUndefined | None => None
  | Some x => Some x
  end = Some child.
Proof. intros -> ?. by destruct child. Qed.

Lemma own_property_scalar json key child :
  is_container json = false → own_property json key = Some child →
  is_container child = false.
Proof.
  intros Hs Hown. destruct json as [| |b|n|s|elems named|props]; try done.
  cbn in Hown. destruct (String.eqb key "length"); [by injection Hown as <-|].
  destruct (CanonicalNumericIndex key); [|done].
  destruct (string_get _ s); [|done]. by injection Hown as <-.
Qed.

Lemma own_property_replace_child json key child child' :
  own_property json key = Some child → is_container child = true →
  child' ≠ JUndefined →
  own_property (replace_child json key child') key = Some child'.
Proof.
  intros Hown Hc Hd.
  destruct (is_container json) eqn:Hjc;
    [|by rewrite (own_property_scalar _ _ _ Hjc Hown) in Hc].
  destruct json as [| | | | |elems named|props]; try done.
  - unfold replace_child. unfold own_property in Hown.
    destruct (String.eqb key "length") eqn:Hlen.
    { injection Hown as <-. done. }
    destruct (array_index key) as [i|] eqn:Hi; unfold own_property; rewrite Hlen, Hi.
    + apply array_lookup_defined in Hown as [Hl _].
      apply array_lookup_defined_2; [|done].
      apply list_lookup_insert_eq. by eapply lookup_lt_Some.
    + by rewrite lookup_insert_eq.
  - unfold replace_child, own_property. by rewrite lookup_insert_eq.
Qed.


Lemma mutate_at_resolves f keys : ∀ json obj obj',
  getJsonPart json keys = Normal obj → is_container obj = true →
  f obj = Normal obj' → is_container obj' = true →
  ∃ json', mutate_at json keys f = Normal json'
           ∧ is_container json' = true
           ∧ ∀ rest, getJsonPart json' (keys ++ rest) = getJsonPart obj' rest.
Proof.
  induction keys as [|key keys IH]; intros json obj obj' Hget Hobj Hf Hobj'.
  - injection Hget as ->. exists obj'. cbn [mutate_at]. by rewrite Hf.
  - destruct (resolves_cons _ _ _ _ Hget Hobj) as (Hc & child & Hown & Hcc & Hchild).
    destruct (IH child obj obj' Hchild Hobj Hf Hobj') as (child' & Hm & Hcc' & Hrest).
    exists (replace_child json key child').
    split; [|split].
    + cbn [mutate_at]. rewrite (Get_truthy _ _ (container_truthy _ Hc)), Hown.
      cbn. by rewrite Hm.
    + by apply replace_child_container.
    + intros rest. rewrite <- app_comm_cons, getJsonPart_cons.
      rewrite (container_truthy _ (replace_child_container json key child' Hc)).
      rewrite (own_property_replace_child _ _ _ _ Hown Hcc (container_defined _ Hcc')).
      apply Hrest.
Qed.


(** *** The JSON codec: strings *)

Lemma parse_string_escape c rest :
  parse_string (escape_code_unit c +:+ rest) = push_char c (parse_string rest).
Proof.
  destruct c as [[] [] [] [] [] [] [] []]; reflexivity.
Qed.

Lemma parse_string_quoted s rest :
  parse_string (escape_string s +:+ String dquote rest) = Some (s, rest).
Proof.
  induction s as [|c s IH].
  - reflexivity.
  - cbn [escape_string]. rewrite append_assoc, parse_string_escape, IH. reflexivity.
Qed.

Lemma QuoteJSONString_eq s rest :
  QuoteJSONString s +:+ rest = String dquote (escape_string s +:+ String dquote rest).
Proof. unfold QuoteJSONString. rewrite append_cons, append_assoc. reflexivity. Qed.

(** *** The JSON codec: numbers *)

Lemma digit_value_pretty_char d : (d < 10)%N → digit_value (pretty_N_char d) = Some d.
Proof.
  intros Hd.
  assert (d = 0 ∨ d = 1 ∨ d = 2 ∨ d = 3 ∨ d = 4 ∨ d = 5 ∨ d = 6 ∨ d = 7 ∨ d = 8 ∨ d = 9)%N
    as Hcases by lia.
  repeat destruct Hcases as [->|Hcases]; try reflexivity. by subst.
Qed.

Lemma digits_value_app s1 s2 acc :
  digits_value (s1 +:+ s2) acc =
  match digits_value s1 acc with
  | Some a => digits_value s2 a
  | None => None
  end.
Proof.
  revert acc. induction s1 as [|c s1 IH]; intros acc; [done|].
  rewrite append_cons. cbn [digits_value].
  destruct (digit_value c); [apply IH|done].
Qed.

(** The decimal notation of a positive number starts with a non-zero
    digit and is read back to the number. *)
Lemma pretty_N_go_digits n :
  (0 < n)%N →
  ∃ c r d, (∀ t, pretty_N_go n t = String c (r +:+ t))
           ∧ digit_value c = Some d ∧ d ≠ 0%N ∧ digits_value r d = Some n.
Proof.
  induction (N.lt_wf_0 n) as [n _ IH]; intros Hpos.
  destruct (decide (n < 10)%N) as [Hlt|Hge].
  - exists (pretty_N_char n), EmptyString, n. split; [|split; [|split]].
    + intros t. rewrite pretty_N_go_step by done.
      by rewrite N.div_small, N.mod_small, pretty_N_go_0.
    + by apply digit_value_pretty_char.
    + lia.
    + done.
  - destruct (IH (n `div` 10)%N) as (c & r & d & Hgo & Hc & Hd & Hv).
    { apply N.div_lt; lia. }
    { apply N.div_str_pos; lia. }
    exists c, (r +:+ String (pretty_N_char (n `mod` 10)) EmptyString), d.
    split; [|split; [|split]]; [|done..|].
    + intros t. rewrite pretty_N_go_step by done.
      by rewrite Hgo, append_assoc.
    + rewrite digits_value_app, Hv. cbn [digits_value].
      rewrite digit_value_pretty_char by (apply N.mod_lt; lia).
      f_equal. pose proof (N.div_mod n 10). lia.
Qed.

Lemma read_digits_stop s : ∀ acc v rest,
  digits_value s acc = Some v → number_ends rest = true →
  read_digits (s +:+ rest) acc = (v, rest).
Proof.
  induction s as [|c s IH]; intros acc v rest Hv Hend.
  - injection Hv as <-. rewrite append_empty_l.
    destruct rest as [|c r]; [done|]. cbn in *. by destruct (digit_value c).
  - rewrite append_cons. cbn in *. destruct (digit_value c); [|done]. by apply IH.
Qed.

Lemma number_ends_fraction rest : number_ends rest = true → starts_fraction rest = false.
Proof.
  destruct rest as [|c r]; [done|]. unfold number_ends.
  destruct (digit_value c); [done|]. by destruct (starts_fraction _).
Qed.

Lemma parse_natural_pretty (n : N) rest :
  number_ends rest = true → parse_natural (pretty n +:+ rest) = Some (n, rest).
Proof.
  intros Hend. unfold pretty, pretty_N. case_decide as Hn.
  - subst n. rewrite append_cons, append_empty_l. unfold parse_natural.
    change (digit_value "0") with (Some 0%N). cbn match. cbn [N.eqb].
    by rewrite (number_ends_fraction _ Hend).
  - destruct (pretty_N_go_digits n) as (c & r & d & Hgo & Hc & Hd & Hv); [lia|].
    rewrite Hgo, append_cons, append_assoc, append_empty_l.
    cbn [parse_natural]. rewrite Hc.
    rewrite (proj2 (N.eqb_neq d 0) Hd).
    rewrite (read_digits_stop _ _ _ _ Hv Hend).
    by rewrite (number_ends_fraction _ Hend).
Qed.

Lemma pretty_N_first (n : N) :
  ∃ c r d, pretty n = String c r ∧ digit_value c = Some d.
Proof.
  unfold pretty, pretty_N. case_decide as Hn.
  - by exists "0"%char, EmptyString, 0%N.
  - destruct (pretty_N_go_digits n) as (c & r & d & Hgo & Hc & _); [lia|].
    exists c, (r +:+ EmptyString), d. by rewrite Hgo.
Qed.

Lemma digit_not_minus c d : digit_value c = Some d → Ascii.eqb c "-" = false.
Proof. destruct c as [[] [] [] [] [] [] [] []]; vm_compute; congruence. Qed.

Lemma parse_number_pretty (z : Z) rest :
  number_ends rest = true → parse_number (NumberToString z +:+ rest) = Some (z, rest).
Proof.
  intros Hend. unfold NumberToString, pretty, pretty_Z.
  destruct z as [|p|p].
  - apply (parse_natural_pretty 0 rest) in Hend as Hp.
    change (pretty 0%N) with "0" in Hp. rewrite append_cons in *.
    cbn [parse_number]. change (Ascii.eqb "0" "-") with false. cbn match. by rewrite Hp.
  - change (pretty p) with (pretty (N.pos p)).
    destruct (pretty_N_first (N.pos p)) as (c & r & d & Heq & Hc).
    pose proof (parse_natural_pretty (N.pos p) rest Hend) as Hp.
    rewrite Heq in *. rewrite append_cons in *.
    cbn [parse_number]. rewrite (digit_not_minus _ _ Hc), Hp. done.
  - change (pretty p) with (pretty (N.pos p)).
    rewrite append_assoc, append_cons, append_empty_l.
    cbn [parse_number]. change (Ascii.eqb "-" "-") with true.
    cbn match. rewrite parse_natural_pretty by done. done.
Qed.

(** *** The JSON codec: values *)

Lemma value_start_facts c :
  value_start c = true →
  is_json_ws c = false ∧ Ascii.eqb c "," = false ∧ Ascii.eqb c "]" = false
  ∧ Ascii.eqb c "}" = false.
Proof. destruct c as [[] [] [] [] [] [] [] []]; vm_compute; naive_solver. Qed.

Lemma skip_ws_value s : starts_value s → skip_ws s = s.
Proof.
  destruct s as [|c r]; [done|]. intros Hs.
  apply value_start_facts in Hs as (Hws & _). cbn. by rewrite Hws.
Qed.

Lemma next_separator_value close s :
  close = "]"%char ∨ close = "}"%char → starts_value s →
  (next_separator close s).1 = Other.
Proof.
  intros Hclose Hs. unfold next_separator. rewrite skip_ws_value by done.
  destruct s as [|c r]; [done|].
  apply value_start_facts in Hs as (_ & Hc & Hb & Hr).
  rewrite Hc. by destruct Hclose as [-> | ->]; rewrite ?Hb, ?Hr.
Qed.

Lemma starts_value_app s t : starts_value s → starts_value (s +:+ t).
Proof. by destruct s. Qed.

Lemma number_start c :
  Ascii.eqb c "-" = true ∨ is_Some (digit_value c) →
  value_start c = true ∧ Ascii.eqb c dquote = false ∧ Ascii.eqb c "[" = false
  ∧ Ascii.eqb c "{" = false ∧ ∀ r, parse_literal (String c r) = None.
Proof.
  destruct c as [[] [] [] [] [] [] [] []]; vm_compute;
    (intros [?|[? ?]]; [done|try done]); done.
Qed.

Lemma NumberToString_first z :
  ∃ c r, NumberToString z = String c r
         ∧ (Ascii.eqb c "-" = true ∨ is_Some (digit_value c)).
Proof.
  unfold NumberToString, pretty, pretty_Z. destruct z as [|p|p].
  - exists "0"%char, EmptyString. split; [done|]. right. by eexists.
  - change (pretty p) with (pretty (N.pos p)).
    destruct (pretty_N_first (N.pos p)) as (c & r & d & -> & Hc). eauto.
  - exists "-"%char, (pretty p). split; [done|]. by left.
Qed.

Lemma serialized_starts_value v text :
  SerializeJSONProperty v = Some text → starts_value text.
Proof.
  destruct v as [| |b|n|s|elems named|props]; try (by intros [= <-]).
  - intros [= <-]. by destruct b.
  - intros [= <-]. destruct (NumberToString_first n) as (c & r & -> & Hc).
    by apply number_start in Hc as [? _].
Qed.

Lemma element_text_starts_value x : starts_value (element_text x).
Proof.
  unfold element_text. destruct (SerializeJSONProperty x) as [text|] eqn:E; [|done].
  by eapply serialized_starts_value.
Qed.

Lemma parse_scalar_serialized v text rest :
  is_scalar v = true → SerializeJSONProperty v = Some text → number_ends rest = true →
  parse_scalar (text +:+ rest) = Some (v, rest).
Proof.
  intros Hs Hser Hend. destruct v as [| |b|n|s| |]; try done; injection Hser as <-.
  - reflexivity.
  - by destruct b.
  - destruct (NumberToString_first n) as (c & r & Heq & Hc).
    pose proof (parse_number_pretty n rest Hend) as Hp.
    rewrite Heq in *. rewrite append_cons in *.
    apply number_start in Hc as (_ & Hq & _ & _ & Hlit).
    unfold parse_scalar. by rewrite Hq, Hlit, Hp.
  - rewrite QuoteJSONString_eq. unfold parse_scalar.
    change (Ascii.eqb dquote dquote) with true. cbn match.
    by rewrite parse_string_quoted.
Qed.

Lemma parse_value_scalar fuel s :
  starts_value s →
  match s with
  | String c _ => Ascii.eqb c "[" = false ∧ Ascii.eqb c "{" = false
  | EmptyString => True
  end →
  parse_value (S fuel) s = parse_scalar s.
Proof.
  destruct s as [|c r]; [done|]. intros _ [H1 H2]. cbn [parse_value]. by rewrite H1, H2.
Qed.

Lemma scalar_text_first v text :
  is_scalar v = true → SerializeJSONProperty v = Some text →
  match text with
  | String c _ => Ascii.eqb c "[" = false ∧ Ascii.eqb c "{" = false
  | EmptyString => True
  end.
Proof.
  intros Hs Hser. destruct v as [| |b|n|s| |]; try done; injection Hser as <-; try done.
  - by destruct b.
  - destruct (NumberToString_first n) as (c & r & -> & Hc).
    by apply number_start in Hc as (_ & _ & ? & ? & _).
Qed.

Lemma serialized_defined v : v ≠ JUndefined → SerializeJSONProperty v = Some (element_text v).
Proof. unfold element_text. by destruct v. Qed.

Lemma serialized_undefined v : SerializeJSONProperty v = None → v = JUndefined.
Proof. by destruct v. Qed.

Lemma persisted_entry_defined v : v ≠ JUndefined → persisted_entry v = Some (persisted v).
Proof. by destruct v. Qed.

Lemma entries_of_texts (props : gmap string value) (texts : list (string * string)) :
  (∀ k t, (k, t) ∈ texts → ∃ v, props !! k = Some v ∧ SerializeJSONProperty v = Some t) →
  ∃ kvs : list (string * value),
    texts = (λ kv, (kv.1, element_text kv.2)) <$> kvs
    ∧ Forall (λ kv, props !! kv.1 = Some kv.2 ∧ kv.2 ≠ JUndefined) kvs.
Proof.
  induction texts as [|[k t] texts IH]; intros Hall.
  - by exists [].
  - destruct IH as (kvs & -> & Hkvs).
    { intros k' t' Hin. apply Hall. by right. }
    destruct (Hall k t) as (v & Hk & Hv); [by left|].
    exists ((k, v) :: kvs). split.
    + rewrite fmap_cons. f_equal. simpl. unfold element_text. by rewrite Hv.
    + constructor; [|done]. split; [done|]. simpl. by intros ->.
Qed.

Lemma serialized_entries (props : gmap string value) :
  ∃ kvs : list (string * value),
    map_to_list (omap SerializeJSONProperty props) = (λ kv, (kv.1, element_text kv.2)) <$> kvs
    ∧ Forall (λ kv, kv.2 ≠ JUndefined) kvs
    ∧ list_to_map (reverse (prod_map id persisted <$> kvs)) = omap persisted_entry props.
Proof.
  destruct (entries_of_texts props (map_to_list (omap SerializeJSONProperty props)))
    as (kvs & Heq & Hkvs).
  { intros k t Hin. apply elem_of_map_to_list in Hin. rewrite lookup_omap in Hin.
    destruct (props !! k) as [v|]; [|done]. by exists v. }
  exists kvs. split; [done|]. split.
  { eapply Forall_impl; [done|]. by intros kv [_ ?]. }
  assert (NoDup (reverse (prod_map id persisted <$> kvs)).*1) as Hnd.
  { rewrite fmap_reverse, reverse_Permutation.
    rewrite <- list_fmap_compose.
    pose proof (NoDup_fst_map_to_list (omap SerializeJSONProperty props)) as Hn.
    rewrite Heq, <- list_fmap_compose in Hn.
    by erewrite list_fmap_ext; [exact Hn|]. }
  rewrite Forall_forall in Hkvs.
  apply map_eq. intros k. rewrite lookup_omap.
  destruct (props !! k ≫= persisted_entry) as [y|] eqn:Hk.
  - destruct (props !! k) as [v|] eqn:Hv; [|done]. cbn in Hk.
    assert (v ≠ JUndefined) as Hdef by (by intros ->).
    rewrite persisted_entry_defined in Hk by done. injection Hk as <-.
    apply elem_of_list_to_map_1; [done|].
    apply elem_of_reverse, list_elem_of_fmap.
    assert ((k, element_text v) ∈ map_to_list (omap SerializeJSONProperty props)) as Hin.
    { apply elem_of_map_to_list. rewrite lookup_omap, Hv. cbn.
      by apply serialized_defined. }
    rewrite Heq in Hin. apply list_elem_of_fmap in Hin as ([k' v'] & [= -> _] & Hin).
    destruct (Hkvs _ Hin) as [Hk' _]. cbn in Hk'. rewrite Hv in Hk'. injection Hk' as <-.
    by exists (k', v).
  - apply not_elem_of_list_to_map_1. intros Hin.
    rewrite fmap_reverse, elem_of_reverse, <- list_fmap_compose in Hin.
    apply list_elem_of_fmap in Hin as ([k' v'] & -> & Hin).
    destruct (Hkvs _ Hin) as [Hk' Hdef]. cbn in *.
    rewrite Hk' in Hk. cbn in Hk. by rewrite persisted_entry_defined in Hk.
Qed.

Lemma SerializeJSONProperty_array elems named :
  SerializeJSONProperty (JArray elems named)
  = Some ("[" +:+ join_with "," (element_text <$> elems) +:+ "]").
Proof. reflexivity. Qed.

Lemma SerializeJSONProperty_object props :
  SerializeJSONProperty (JObject props)
  = Some ("{" +:+ join_with ","
                    (member_text <$> map_to_list (omap SerializeJSONProperty props))
              +:+ "}").
Proof. reflexivity. Qed.

Lemma persisted_array elems named :
  persisted (JArray elems named) = JArray (persisted_element <$> elems) ∅.
Proof. reflexivity. Qed.

Lemma persisted_object props :
  persisted (JObject props) = JObject (omap persisted_entry props).
Proof. reflexivity. Qed.

Lemma join_with_cons sep x y r :
  join_with sep (x :: y :: r) = x +:+ sep +:+ join_with sep (y :: r).
Proof. reflexivity. Qed.

Lemma bracketed opening closing body rest :
  (String opening EmptyString +:+ body +:+ String closing EmptyString) +:+ rest
  = String opening (body +:+ String closing rest).
Proof. by rewrite !append_assoc, !append_cons, !append_empty_l. Qed.

Lemma length_bracketed opening closing body :
  String.length (String opening EmptyString +:+ body +:+ String closing EmptyString)
  = S (S (String.length body)).
Proof. rewrite append_cons, append_empty_l. cbn. rewrite length_append. cbn. lia. Qed.

Lemma starts_value_join sep x r : starts_value x → starts_value (join_with sep (x :: r)).
Proof. destruct r; [done|]. rewrite join_with_cons. apply starts_value_app. Qed.

Lemma entry_text_app k v rest :
  entry_text (k, v) +:+ rest
  = String dquote (escape_string k +:+ String dquote (String ":" (element_text v +:+ rest))).
Proof.
  unfold entry_text, member_text. cbn [fst snd].
  by rewrite !append_assoc, QuoteJSONString_eq, append_cons, append_empty_l.
Qed.

Lemma length_entry_text k v :
  String.length (element_text v) < String.length (entry_text (k, v)).
Proof.
  unfold entry_text, member_text, QuoteJSONString. cbn [fst snd].
  rewrite append_cons. cbn [String.length]. rewrite !length_append. cbn. lia.
Qed.

Lemma parse_value_serialized_scalar fuel v text rest :
  is_scalar v = true → SerializeJSONProperty v = Some text → number_ends rest = true →
  parse_value (S fuel) (text +:+ rest) = Some (v, rest).
Proof.
  intros Hs Hser Hend.
  pose proof (serialized_starts_value _ _ Hser) as Hstart.
  pose proof (scalar_text_first _ _ Hs Hser) as Hfirst.
  rewrite parse_value_scalar.
  - by apply parse_scalar_serialized.
  - by apply starts_value_app.
  - destruct text as [|c r]; [done|]. by rewrite append_cons.
Qed.

(** The text of an element is the text of the value that is read back. *)
Lemma element_text_serialized x :
  ∃ v, SerializeJSONProperty v = Some (element_text x) ∧ persisted v = persisted_element x.
Proof.
  destruct x as [| |b|n|s|elems named|props].
  - by exists JNull.
  - by exists JNull.
  - by exists (JBool b).
  - by exists (JNumber n).
  - by exists (JString s).
  - by exists (JArray elems named).
  - by exists (JObject props).
Qed.

Lemma parse_serialized fuel :
  (∀ v text rest,
     SerializeJSONProperty v = Some text → String.length text ≤ fuel →
     number_ends rest = true →
     parse_value fuel (text +:+ rest) = Some (persisted v, rest))
  ∧ (∀ elems rest,
       elems ≠ [] → String.length (join_with "," (element_text <$> elems)) < fuel →
       parse_elements fuel (join_with "," (element_text <$> elems) +:+ String "]" rest)
       = Some (persisted_element <$> elems, rest))
  ∧ (∀ (kvs : list (string * value)) rest,
       kvs ≠ [] → Forall (λ kv, kv.2 ≠ JUndefined) kvs →
       String.length (join_with "," (entry_text <$> kvs)) < fuel →
       parse_members fuel (join_with "," (entry_text <$> kvs) +:+ String "}" rest)
       = Some (prod_map id persisted <$> kvs, rest)).
Proof.
  induction fuel as [|fuel (IHv & IHe & IHm)].
  { split; [|split]; [|intros; lia..].
    intros v text rest Hser Hlen _. apply serialized_starts_value in Hser.
    destruct text; [done|]. cbn in Hlen. lia. }
  split; [|split].
  - intros v text rest Hser Hlen Hend.
    destruct v as [| |b|n|s|elems named|props]; [done|..];
      try (by apply parse_value_serialized_scalar).
    + rewrite SerializeJSONProperty_array in Hser. injection Hser as <-.
      rewrite length_bracketed in Hlen. rewrite bracketed, persisted_array.
      cbn [parse_value]. change (Ascii.eqb "[" "[") with true. cbn match.
      destruct elems as [|x xs].
      { reflexivity. }
      assert (starts_value (join_with "," (element_text <$> x :: xs) +:+ String "]" rest))
        as Hstart.
      { rewrite fmap_cons. apply starts_value_app, starts_value_join,
          element_text_starts_value. }
      pose proof (next_separator_value "]" _ (or_introl eq_refl) Hstart) as Hsep.
      destruct (next_separator "]" _) as [sep r']. cbn in Hsep. subst sep.
      rewrite skip_ws_value by done. rewrite IHe by (done || lia). done.
    + rewrite SerializeJSONProperty_object in Hser. injection Hser as <-.
      rewrite length_bracketed in Hlen. rewrite bracketed, persisted_object.
      cbn [parse_value]. change (Ascii.eqb "{" "[") with false.
      change (Ascii.eqb "{" "{") with true. cbn match.
      destruct (serialized_entries props) as (kvs & Heq & Hdef & Hmap).
      rewrite Heq in *. rewrite <- list_fmap_compose in *.
      change (member_text ∘ _) with entry_text in *.
      destruct kvs as [|kv kvs].
      { cbn in Hmap. rewrite <- Hmap. reflexivity. }
      assert (starts_value (join_with "," (entry_text <$> kv :: kvs) +:+ String "}" rest))
        as Hstart.
      { rewrite fmap_cons. by apply starts_value_app, starts_value_join. }
      pose proof (next_separator_value "}" _ (or_intror eq_refl) Hstart) as Hsep.
      destruct (next_separator "}" _) as [sep r']. cbn in Hsep. subst sep.
      rewrite skip_ws_value by done. rewrite IHm by (done || lia). by rewrite Hmap.
  - intros elems rest Hne Hlen.
    destruct elems as [|x xs]; [done|]. cbn [parse_elements].
    destruct (element_text_serialized x) as (v & Hser & Hv).
    destruct xs as [|y ys].
    + cbn [fmap list_fmap join_with] in *.
      rewrite (IHv v _ _ Hser) by (done || lia). rewrite Hv. reflexivity.
    + rewrite !fmap_cons, join_with_cons, !append_assoc in *.
      rewrite append_cons, append_empty_l.
      rewrite !length_append in Hlen. cbn [String.length] in Hlen.
      rewrite (IHv v _ _ Hser) by (done || lia).
      change (next_separator "]" (String "," ?r)) with (Comma, r). cbn match.
      rewrite <- fmap_cons in Hlen |- *.
      rewrite skip_ws_value
        by (rewrite fmap_cons; apply starts_value_app, starts_value_join,
              element_text_starts_value).
      rewrite IHe by (done || lia). by rewrite Hv.
  - intros kvs rest Hne Hdef Hlen.
    destruct kvs as [|[k x] kvs]; [done|]. cbn [parse_members].
    apply Forall_cons in Hdef as [Hx Hdef]. cbn [snd] in Hx.
    pose proof (serialized_defined x Hx) as Hser.
    pose proof (length_entry_text k x) as Hlt.
    destruct kvs as [|kv kvs].
    + cbn [fmap list_fmap join_with] in *. rewrite entry_text_app.
      change (Ascii.eqb dquote dquote) with true. cbn match.
      rewrite parse_string_quoted.
      change (skip_ws (String ":" ?r)) with (String ":" r).
      change (Ascii.eqb ":" ":") with true. cbn match.
      rewrite skip_ws_value by apply starts_value_app, element_text_starts_value.
      rewrite (IHv x _ _ Hser) by (done || lia). reflexivity.
    + rewrite !fmap_cons, join_with_cons, !append_assoc in *.
      rewrite entry_text_app.
      rewrite !length_append in Hlen. cbn [String.length] in Hlen.
      change (Ascii.eqb dquote dquote) with true. cbn match.
      rewrite parse_string_quoted.
      change (skip_ws (String ":" ?r)) with (String ":" r).
      change (Ascii.eqb ":" ":") with true. cbn match.
      rewrite skip_ws_value by apply starts_value_app, element_text_starts_value.
      rewrite append_cons, append_empty_l.
      rewrite (IHv x _ _ Hser) by (done || lia).
      change (next_separator "}" (String "," ?r)) with (Comma, r). cbn match.
      rewrite <- fmap_cons in Hlen |- *.
      assert (starts_value (entry_text kv)) as Hkv by done.
      rewrite skip_ws_value
        by (rewrite fmap_cons; by apply starts_value_app, starts_value_join).
      rewrite IHm by (done || lia). reflexivity.
Qed.

(** Reading back what was written. *)
Lemma parse_stringify v text :
  JSON.stringify v = Some text → JSON.parse text = Some (persisted v).
Proof.
  intros Hser. unfold JSON.parse.
  rewrite skip_ws_value by (by eapply serialized_starts_value).
  rewrite <- (append_empty_r text) at 2.
  by rewrite (proj1 (parse_serialized (String.length text)) v text EmptyString Hser).
Qed.

(** *** JSON values are what is read, and are written as they are *)

Lemma is_json_defined v : is_json v → v ≠ JUndefined.
Proof. by intros [] . Qed.

Lemma persisted_json : ∀ v, is_json v → persisted v = v.
Proof.
  fix IH 2. intros v Hv.
  destruct Hv as [| | | |elems Helems|props Hprops]; try reflexivity.
  - assert (∀ x, x ∈ elems → persisted x = x ∧ x ≠ JUndefined) as Hrec.
    { intros x Hx. split; [apply IH|apply is_json_defined]; apply Helems, Hx. }
    clear IH Helems.
    rewrite persisted_array. f_equal.
    induction elems as [|x elems IHelems]; [done|].
    rewrite fmap_cons. f_equal.
    + destruct (Hrec x) as [Hp Hd]; [by left|].
      unfold persisted_element. by destruct x.
    + apply IHelems. intros y Hy. apply Hrec. by right.
  - assert (∀ k x, props !! k = Some x → persisted x = x ∧ x ≠ JUndefined) as Hrec.
    { intros k x Hx. split; [apply IH|apply is_json_defined]; apply (Hprops k x Hx). }
    clear IH Hprops.
    rewrite persisted_object. f_equal.
    apply map_eq. intros k. rewrite lookup_omap.
    destruct (props !! k) as [x|] eqn:Hk; [|done]. cbn.
    destruct (Hrec k x Hk) as [Hp Hd].
    rewrite persisted_entry_defined by done. by rewrite Hp.
Qed.

Lemma parse_scalar_json s v r : parse_scalar s = Some (v, r) → is_json v.
Proof.
  unfold parse_scalar, parse_literal. intros H.
  repeat case_match; simplify_eq; constructor.
Qed.

Lemma parse_json fuel :
  (∀ s v r, parse_value fuel s = Some (v, r) → is_json v)
  ∧ (∀ s vs r, parse_elements fuel s = Some (vs, r) → ∀ x, x ∈ vs → is_json x)
  ∧ (∀ s kvs r, parse_members fuel s = Some (kvs, r) →
       ∀ k x, (k, x) ∈ kvs → is_json x).
Proof.
  induction fuel as [|fuel (IHv & IHe & IHm)]; [done|].
  split; [|split].
  - intros s v r H. cbn [parse_value] in H.
    destruct s as [|c s]; [done|].
    destruct (Ascii.eqb c "[").
    { destruct (next_separator "]" s) as [[] ?].
      - destruct (parse_elements fuel _) as [[vs r']|] eqn:He; [|done].
        injection H as <- <-. constructor. by eapply IHe.
      - injection H as <- <-. constructor. by intros x ?%elem_of_nil.
      - destruct (parse_elements fuel _) as [[vs r']|] eqn:He; [|done].
        injection H as <- <-. constructor. by eapply IHe. }
    destruct (Ascii.eqb c "{").
    { assert (∀ kvs r', parse_members fuel (skip_ws s) = Some (kvs, r') →
                is_json (JObject (list_to_map (reverse kvs)))) as Hobj.
      { intros kvs r' Hm. constructor. intros k x Hk.
        apply elem_of_list_to_map_2 in Hk. rewrite elem_of_reverse in Hk.
        eapply IHm; [exact Hm|exact Hk]. }
      destruct (next_separator "}" s) as [[] ?].
      - destruct (parse_members fuel _) as [[kvs r']|] eqn:Hm; [|done].
        injection H as <- <-. by eapply Hobj.
      - injection H as <- <-. constructor. by intros k x ?%lookup_empty_Some.
      - destruct (parse_members fuel _) as [[kvs r']|] eqn:Hm; [|done].
        injection H as <- <-. by eapply Hobj. }
    by eapply parse_scalar_json.
  - intros s vs r H. cbn [parse_elements] in H.
    destruct (parse_value fuel s) as [[v r1]|] eqn:Hv; [|done].
    destruct (next_separator "]" r1) as [[] r2]; [| |done].
    + destruct (parse_elements fuel _) as [[vs' r3]|] eqn:He; [|done].
      injection H as <- <-. intros x [->|Hx]%elem_of_cons; [by eapply IHv|by eapply IHe].
    + injection H as <- <-. intros x ->%list_elem_of_singleton. by eapply IHv.
  - intros s kvs r H. cbn [parse_members] in H.
    destruct s as [|c s]; [done|].
    destruct (Ascii.eqb c dquote); [|done].
    destruct (parse_string s) as [[k r1]|]; [|done].
    destruct (skip_ws r1) as [|c2 r2]; [done|].
    destruct (Ascii.eqb c2 ":"); [|done].
    destruct (parse_value fuel _) as [[v r3]|] eqn:Hv; [|done].
    destruct (next_separator "}" r3) as [[] r4]; [| |done].
    + destruct (parse_members fuel _) as [[kvs' r5]|] eqn:Hm; [|done].
      injection H as <- <-.
      intros k' x [[= -> ->]|Hx]%elem_of_cons; [by eapply IHv|by eapply IHm].
    + injection H as <- <-. intros k' x [= -> ->]%list_elem_of_singleton. by eapply IHv.
Qed.

Lemma JSON_parse_json text v : JSON.parse text = Some v → is_json v.
Proof.
  unfold JSON.parse. intros H.
  destruct (parse_value _ _) as [[v' r]|] eqn:Hv; [|done].
  destruct (skip_ws r); [|done]. injection H as <-.
  by eapply (proj1 (parse_json _)).
Qed.

(** *** Assignment to a property *)



Lemma stores_container obj key v : stores obj key v = true → is_container obj = true.
Proof. by destruct obj. Qed.







Lemma is_json_own_property json key child :
  is_json json → own_property json key = Some child → is_json child.
Proof.
  intros Hj Hown. destruct Hj as [| | |s|elems Helems|props Hprops]; try done.
  - cbn in Hown. destruct (String.eqb key "length"); [injection Hown as <-; constructor|].
    destruct (CanonicalNumericIndex key); [|done].
    destruct (string_get _ s); [|done]. injection Hown as <-. constructor.
  - cbn in Hown. destruct (String.eqb key "length"); [injection Hown as <-; constructor|].
    destruct (array_index key) as [i|]; [|by rewrite lookup_empty in Hown].
    apply array_lookup_defined in Hown as [Hl _].
    apply Helems. by eapply list_elem_of_lookup_2.
  - by eapply Hprops.
Qed.

Lemma persisted_container v : is_container v = true → is_container (persisted v) = true.
Proof. by destruct v. Qed.






Lemma PutValue_container obj key v obj' :
  is_container obj = true → PutValue obj key v = Normal obj' → is_container obj' = true.
Proof.
  intros Hc Hput. destruct obj as [| | | | |elems named|props]; try done.
  - unfold PutValue in Hput. destruct (String.eqb key "length").
    + unfold ArraySetLength in Hput. destruct (ToNumber v) as [[n|]|]; try done.
      cbn in Hput. destruct (_ && _); [|done]. by injection Hput as <-.
    + destruct (array_index key); [destruct (_ <? _)|destruct (_ && _)];
        by injection Hput as <-.
  - unfold PutValue in Hput. destruct (_ && _); by injection Hput as <-.
Qed.


(** *** Writing the mutated document and reading it back *)

Lemma getJsonPart_app keys rest : ∀ json obj,
  getJsonPart json keys = Normal obj →
  getJsonPart json (keys ++ rest) = getJsonPart obj rest.
Proof.
  induction keys as [|key keys IH]; intros json obj Hget.
  - by injection Hget as ->.
  - rewrite <- app_comm_cons, getJsonPart_cons. rewrite getJsonPart_cons in Hget.
    assert (getJsonPart JUndefined rest = Normal JUndefined) as Hundef
      by (by destruct rest).
    destruct (ToBoolean json); [|injection Hget as <-; by rewrite Hundef].
    destruct (own_property json key) as [child|]; [by apply IH|].
    injection Hget as <-. by rewrite Hundef.
Qed.



Lemma split_nonempty sep s : split sep s ≠ [].
Proof.
  destruct s as [|c s]; [done|]. cbn.
  destruct (Ascii.eqb c sep); [done|]. by destruct (split sep s).
Qed.

Lemma pop_split arg0 :
  split "." arg0 = (pop (split "." arg0)).2 ++ [(pop (split "." arg0)).1].
Proof. apply app_removelast_last, split_nonempty. Qed.


Lemma stringify_container v : is_container v = true → ∃ text, JSON.stringify v = Some text.
Proof. destruct v; try done; by eexists. Qed.

Lemma writeJSON_config w old v text :
  disk w !! CONFIG = Some (File old) → JSON.stringify v = Some text →
  writeJSON CONFIG v w = (Normal (), set_disk (<[CONFIG:=File text]> (disk w)) w).
Proof.
  intros Hold Hs. unfold writeJSON. rewrite Hs. unfold fs.writeFileSync, fs.is_directory.
  by rewrite Hold.
Qed.




Lemma stringify_defined v : v ≠ JUndefined → ∃ text, JSON.stringify v = Some text.
Proof. intros Hv. exists (element_text v). by apply serialized_defined. Qed.

Lemma stringify_json v :
  is_json v → ∃ text, JSON.stringify v = Some text ∧ JSON.parse text = Some v.
Proof.
  intros Hj. destruct (stringify_defined v (is_json_defined v Hj)) as [text Hs].
  exists text. split; [done|]. by rewrite (parse_stringify _ _ Hs), (persisted_json _ Hj).
Qed.


(** *** The name of the statistics file *)

Lemma pretty_four_digits (n : N) :
  (1000 ≤ n ≤ 9999)%N →
  pretty n = String (pretty_N_char (((n / 10) / 10) / 10))
               (String (pretty_N_char (((n / 10) / 10) mod 10))
                  (String (pretty_N_char ((n / 10) mod 10))
                     (String (pretty_N_char ((n mod 10))) EmptyString))).
Proof.
  intros Hn. unfold pretty, pretty_N. rewrite decide_False by lia.
  rewrite pretty_N_go_step by lia.
  rewrite pretty_N_go_step by (apply N.div_str_pos; lia).
  assert (10 ≤ ((n / 10) / 10))%N as H2.
  { rewrite N.Div0.div_div. apply N.div_le_lower_bound; lia. }
  rewrite pretty_N_go_step by lia.
  assert (1 ≤ (((n / 10) / 10) / 10) < 10)%N as H3.
  { rewrite !N.Div0.div_div. split.
    - apply N.div_le_lower_bound; lia.
    - apply N.Div0.div_lt_upper_bound; lia. }
  rewrite pretty_N_go_step by lia.
  rewrite (N.div_small (_ / 10)%N), pretty_N_go_0 by lia.
  by rewrite (N.mod_small (((_ / 10) / 10) / 10)%N) by lia.
Qed.

Lemma getStatName_run w :
  getStatName w =
  (Normal ((if (getMonth (clock w) + 1 <? 10)%Z
            then "0" +:+ NumberToString (getMonth (clock w) + 1)
            else NumberToString (getMonth (clock w) + 1))
           +:+ "." +:+ NumberToString (getFullYear (clock w)) +:+ ".json"), w).
Proof. reflexivity. Qed.

(** *** The statistics file of the month *)

Lemma digits_no_slash s : ∀ acc n, digits_value s acc = Some n → has_slash s = false.
Proof.
  induction s as [|c s IH]; intros acc n Hv; [done|].
  cbn in *. destruct (digit_value c) as [d|] eqn:Hd; [|done].
  rewrite (IH _ _ Hv), orb_false_r.
  destruct c as [[] [] [] [] [] [] [] []]; vm_compute in Hd; by try discriminate.
Qed.

Lemma has_slash_app s t : has_slash (s +:+ t) = has_slash s || has_slash t.
Proof.
  induction s as [|c s IH]; [done|].
  rewrite append_cons. cbn. by rewrite IH, orb_assoc.
Qed.

Lemma pretty_N_no_slash (n : N) : has_slash (pretty n) = false.
Proof.
  unfold pretty, pretty_N. case_decide; [done|].
  destruct (pretty_N_go_digits n) as (c & r & d & Hgo & Hc & _ & Hv); [lia|].
  rewrite Hgo, append_empty_r.
  apply (digits_no_slash (String c r) 0 n). cbn. by rewrite Hc.
Qed.

Lemma NumberToString_no_slash z : has_slash (NumberToString z) = false.
Proof.
  unfold NumberToString, pretty, pretty_Z. destruct z as [|p|p]; [done|..].
  - apply (pretty_N_no_slash (N.pos p)).
  - rewrite has_slash_app. apply (pretty_N_no_slash (N.pos p)).
Qed.

Lemma dirname_no_slash s : has_slash s = false → dirname s = EmptyString.
Proof. destruct s as [|c s]; [done|]. cbn. by intros ->. Qed.

Lemma dirname_STATS name : has_slash name = false → dirname (STATS +:+ name) = STATS.
Proof.
  intros Hn. unfold STATS. rewrite !append_cons, append_empty_l.
  cbn [dirname has_slash Ascii.eqb Bool.eqb orb].
  by rewrite (dirname_no_slash _ Hn).
Qed.

Lemma getStatName_no_slash w name : getStatName w = (Normal name, w) → has_slash name = false.
Proof.
  rewrite getStatName_run. intros [= <-].
  rewrite !has_slash_app, NumberToString_no_slash.
  destruct (_ <? _)%Z; rewrite ?has_slash_app, NumberToString_no_slash; done.
Qed.

Lemma empty_statistics_written :
  JSON.stringify empty_statistics = Some empty_statistics_text
  ∧ JSON.parse empty_statistics_text = Some empty_statistics
  ∧ Get empty_statistics "packages" = Normal (JArray [] ∅).
Proof. by vm_compute. Qed.

(** * The claims *)

(** C1.  The path resolver never throws and returns the document itself
    for the empty key sequence.  At each key it descends into the own
    property of that name when the current value is an object, an array
    or a non-empty string (whose own properties are its characters and
    its length), and returns [undefined] at once otherwise. *)
Theorem getJsonPart_walk (json : value) (key : string) (keys : list string) :
  getJsonPart json [] = Normal json
  ∧ getJsonPart json (key :: keys) =
      match json with
      | JArray _ _ | JObject _ | JString (String _ _) =>
          match own_property json key with
          | Some child => getJsonPart child keys
          | None => Normal JUndefined
          end
      | _ => Normal JUndefined
      end
  ∧ ∃ v, getJsonPart json (key :: keys) = Normal v.
Proof.
  split; [done|]. split; [|apply getJsonPart_total].
  rewrite getJsonPart_cons.
  destruct json as [| |b|n|s|elems named|props]; try done.
  - by destruct b.
  - cbn. by destruct (n =? 0)%Z.
  - by destruct s.
Qed.

(** C1, as stated, fails on a string: a string is not a container, yet
    the resolver descends into its characters and its length. *)
Lemma getJsonPart_string_descends :
  is_container (JString "hello") = false
  ∧ getJsonPart (JObject {[ "a" := JString "hello" ]}) ["a"; "0"] = Normal (JString "h")
  ∧ getJsonPart (JObject {[ "a" := JString "hello" ]}) ["a"; "length"] = Normal (JNumber 5).
Proof. by vm_compute. Qed.






(** C4.  For a configuration file whose text the model covers: when the
    text cannot be parsed, or parses to a falsy value ([null], [false],
    [0], the empty string), the invocation reports the wrong format and
    stops: no handler runs, no file changes.  When it parses to a truthy
    value that is not an object or an array, the handler of the command
    does run, on that value, and the configuration file is left as it
    is. *)
Theorem falsy_config_aborts (args : list string) (w : world) (text : string) :
  disk w !! CONFIG = Some (File text) →
  JSON.covered text = true →
  (ToBoolean (default JNull (JSON.parse text)) = false →
   ∃ w', npmStatistic args w = (Normal (), w')
         ∧ disk w' = disk (booted w)
         ∧ disk w' !! CONFIG = Some (File text)
         ∧ console w' = console w ++ [wrong_config]
         ∧ requests w' = requests w)
  ∧ (ToBoolean (default JNull (JSON.parse text)) = true →
     is_container (default JNull (JSON.parse text)) = false →
     (∀ handler,
        (COMMANDS !! command_of args : option (list string → value → M unit)) = Some handler →
        npmStatistic args w = handler (tail args) (default JNull (JSON.parse text)) (booted w))
     ∧ ∃ w', npmStatistic args w = (Normal (), w')
             ∧ disk w' = disk (booted w)
             ∧ disk w' !! CONFIG = Some (File text)
             ∧ requests w' = requests w).
Proof.
  intros Hfile Hcovered.
  destruct (booted_with_config w text Hfile) as (Hf & _ & Hc & Hr & _).
  rewrite npmStatistic_run. cbn zeta. fold (command_of args).
  rewrite (loaded_with_config _ text) by done.
  split.
  - intros ->. cbn [negb]. eexists. split; [reflexivity|]. cbn.
    by rewrite Hc, Hr.
  - intros Ht Hs. rewrite Ht. cbn [negb]. split.
    + by intros handler ->.
    + destruct (COMMANDS !! _) as [handler|] eqn:Hcmd.
      * apply COMMANDS_inv in Hcmd.
        destruct (handler_on_scalar handler (tail args) _ (booted w) Hcmd Hs Ht)
          as (w' & -> & Hd & Hq).
        exists w'. split; [done|]. by rewrite Hd, Hq, Hr.
      * eexists. split; [reflexivity|]. cbn. by rewrite Hr.
Qed.

Lemma falsy_config_aborts_witness :
  (∃ w', npmStatistic [SET; "a"; "1"] (world_with_config "0") = (Normal (), w')
         ∧ disk w' = disk (booted (world_with_config "0"))
         ∧ disk w' !! CONFIG = Some (File "0")
         ∧ console w' = console (world_with_config "0") ++ [wrong_config]
         ∧ requests w' = requests (world_with_config "0"))
  ∧ ((∀ handler,
        (COMMANDS !! command_of [GET; "length"] : option (list string → value → M unit))
        = Some handler →
        npmStatistic [GET; "length"] (world_with_config "5")
        = handler (tail [GET; "length"]) (default JNull (JSON.parse "5"))
            (booted (world_with_config "5")))
     ∧ ∃ w', npmStatistic [GET; "length"] (world_with_config "5") = (Normal (), w')
             ∧ disk w' = disk (booted (world_with_config "5"))
             ∧ disk w' !! CONFIG = Some (File "5")
             ∧ requests w' = requests (world_with_config "5")).
Proof.
  split.
  - apply (falsy_config_aborts [SET; "a"; "1"] (world_with_config "0") "0"); reflexivity.
  - apply (falsy_config_aborts [GET; "length"] (world_with_config "5") "5"); reflexivity.
Defined.

(** C4, as stated, fails on a configuration file that holds a number: the
    text parses to a value that is not an object, yet the [get] handler
    runs and prints it. *)
Lemma number_config_reaches_handler :
  JSON.parse "5" = Some (JNumber 5)
  ∧ is_container (JNumber 5) = false
  ∧ npmStatistic [GET] (world_with_config "5")
    = (Normal (),
       {| disk := disk (world_with_config "5"); console := [Log "5"];
          requests := []; clock := clock (world_with_config "5") |}).
Proof. by vm_compute. Qed.

(** C5.  [readJSON] returns [null] when the file is missing, and returns
    the same [null] when the file holds a text that is not JSON (a text
    that the model covers and that does not parse). *)
Theorem readJSON_null_when_missing_or_malformed (name : string) (w : world) :
  (disk w !! name = None → readJSON name w = (Normal JNull, w))
  ∧ (∀ text, disk w !! name = Some (File text) →
       JSON.covered text = true → JSON.parse text = None →
       readJSON name w = (Normal JNull, w)).
Proof.
  rewrite readJSON_loaded. unfold loaded. split.
  - by intros ->.
  - by intros text -> _ ->.
Qed.

Lemma readJSON_null_when_missing_or_malformed_witness :
  readJSON CONFIG fresh_world = (Normal JNull, fresh_world)
  ∧ readJSON CONFIG (world_with_config "{") = (Normal JNull, world_with_config "{").
Proof.
  split.
  - apply (readJSON_null_when_missing_or_malformed CONFIG fresh_world). reflexivity.
  - apply (readJSON_null_when_missing_or_malformed CONFIG (world_with_config "{"))
      with (text := "{"); reflexivity.
Defined.

(** C5, as stated, fails: a missing file and a file with malformed text
    give the same result. *)
Lemma readJSON_missing_malformed_same :
  disk fresh_world !! CONFIG = None
  ∧ disk (world_with_config "{") !! CONFIG = Some (File "{")
  ∧ JSON.parse "{" = None
  ∧ (readJSON CONFIG fresh_world).1 = (readJSON CONFIG (world_with_config "{")).1.
Proof. by vm_compute. Qed.

(** C6.  The name of the statistics file is a function of the clock
    alone: for a month of the calendar and a year of four digits it is
    the month counted from one, in two digits, a dot, the year in four
    digits, and the suffix [.json]; the world is left as it is. *)
Theorem getStatName_format (w : world) :
  (0 ≤ getMonth (clock w) ≤ 11)%Z →
  (1000 ≤ getFullYear (clock w) ≤ 9999)%Z →
  ∃ (c1 c2 d1 d2 d3 d4 : ascii) (m1 m2 y1 y2 y3 y4 : N),
    getStatName w
    = (Normal (String c1 (String c2 (String "."
                 (String d1 (String d2 (String d3 (String d4 ".json"))))))), w)
    ∧ digit_value c1 = Some m1 ∧ digit_value c2 = Some m2
    ∧ digit_value d1 = Some y1 ∧ digit_value d2 = Some y2
    ∧ digit_value d3 = Some y3 ∧ digit_value d4 = Some y4
    ∧ (Z.of_N (10 * m1 + m2) = getMonth (clock w) + 1)%Z
    ∧ (Z.of_N (1000 * y1 + 100 * y2 + 10 * y3 + y4) = getFullYear (clock w))%Z.
Proof.
  intros Hm Hy. rewrite getStatName_run.
  destruct (getFullYear (clock w)) as [|y|y] eqn:Hyear; [lia| |lia].
  unfold NumberToString at 3. unfold pretty at 1, pretty_Z.
  change (pretty y) with (pretty (N.pos y)).
  rewrite (pretty_four_digits (N.pos y)) by lia.
  set (n := N.pos y) in *.
  assert ((((n / 10) / 10) / 10) < 10)%N as Hy1.
  { rewrite !N.Div0.div_div. apply N.Div0.div_lt_upper_bound. lia. }
  assert (∀ a, (a mod 10) < 10)%N as Hmod by (intros a; apply N.mod_lt; lia).
  assert (Z.of_N (1000 * (((n / 10) / 10) / 10) + 100 * (((n / 10) / 10) mod 10)
                  + 10 * ((n / 10) mod 10) + (n mod 10)) = Z.pos y)%Z as Hsum.
  { pose proof (N.div_mod n 10). pose proof (N.div_mod ((n / 10)) 10).
    pose proof (N.div_mod (((n / 10) / 10)) 10). lia. }
  assert (∃ c1 c2 m1 m2,
    (if (getMonth (clock w) + 1 <? 10)%Z
     then "0" +:+ NumberToString (getMonth (clock w) + 1)
     else NumberToString (getMonth (clock w) + 1))
    = String c1 (String c2 EmptyString)
    ∧ digit_value c1 = Some m1 ∧ digit_value c2 = Some m2
    ∧ (Z.of_N (10 * m1 + m2) = getMonth (clock w) + 1)%Z)
    as (c1 & c2 & m1 & m2 & -> & Hc1 & Hc2 & Hmonth).
  { assert (getMonth (clock w) = 0 ∨ getMonth (clock w) = 1 ∨ getMonth (clock w) = 2
            ∨ getMonth (clock w) = 3 ∨ getMonth (clock w) = 4 ∨ getMonth (clock w) = 5
            ∨ getMonth (clock w) = 6 ∨ getMonth (clock w) = 7 ∨ getMonth (clock w) = 8
            ∨ getMonth (clock w) = 9 ∨ getMonth (clock w) = 10
            ∨ getMonth (clock w) = 11)%Z as Hcases by lia.
    repeat destruct Hcases as [->|Hcases]; try rewrite Hcases;
      do 2 eexists; eexists (_ : N); eexists (_ : N);
      (split; [by vm_compute|]); (split; [by vm_compute|]); (split; [by vm_compute|]);
      by vm_compute. }
  do 6 eexists. exists m1, m2. do 4 eexists.
  split; [reflexivity|].
  split; [done|]. split; [done|].
  split; [by apply digit_value_pretty_char|].
  split; [by apply digit_value_pretty_char|].
  split; [by apply digit_value_pretty_char|].
  split; [by apply digit_value_pretty_char|].
  split; [done|]. exact Hsum.
Qed.

Lemma getStatName_format_witness :
  ∃ (c1 c2 d1 d2 d3 d4 : ascii) (m1 m2 y1 y2 y3 y4 : N),
    getStatName march_2024
    = (Normal (String c1 (String c2 (String "."
                 (String d1 (String d2 (String d3 (String d4 ".json"))))))), march_2024)
    ∧ digit_value c1 = Some m1 ∧ digit_value c2 = Some m2
    ∧ digit_value d1 = Some y1 ∧ digit_value d2 = Some y2
    ∧ digit_value d3 = Some y3 ∧ digit_value d4 = Some y4
    ∧ (Z.of_N (10 * m1 + m2) = getMonth (clock march_2024) + 1)%Z
    ∧ (Z.of_N (1000 * y1 + 100 * y2 + 10 * y3 + y4) = getFullYear (clock march_2024))%Z.
Proof. apply (getStatName_format march_2024); cbn; lia. Defined.

(** C6, as stated, fails on the suffix: for March and for December 2024
    the function returns the name of the file, not the bare period key. *)
Lemma getStatName_has_suffix :
  getStatName march_2024 = (Normal "03.2024.json", march_2024)
  ∧ getStatName december_2024 = (Normal "12.2024.json", december_2024)
  ∧ "03.2024.json" ≠ "03.2024" ∧ "12.2024.json" ≠ "12.2024".
Proof. split; [by vm_compute|]. split; [by vm_compute|]. done. Qed.

(** C7.  When the statistics file of the current month does not exist
    (and the statistics directory does), [updateCallback] creates it with
    the text of [{packages: []}] and then loads it: the document it works
    on is that object, and its [packages] is the empty array. *)
Theorem updateCallback_creates_statistics (res : ServerResponse) (w : world) (name : string) :
  getStatName w = (Normal name, w) →
  disk w !! STATS = Some Directory →
  disk w !! (STATS +:+ name) = None →
  updateCallback res w
  = (Normal (empty_statistics, JArray [] ∅),
     set_disk (<[STATS +:+ name := File empty_statistics_text]> (disk w)) w)
  ∧ JSON.parse empty_statistics_text = Some empty_statistics.
Proof.
  intros Hname Hdir Hnone.
  destruct empty_statistics_written as (Hs & Hp & Hg).
  split; [|done].
  pose proof (getStatName_no_slash _ _ Hname) as Hslash.
  unfold updateCallback, mbind, M_bind. rewrite Hname.
  unfold try_catch, fs.accessSync. rewrite Hnone.
  change (JObject {[ "packages" := JArray [] ∅ ]}) with empty_statistics.
  unfold writeJSON. rewrite Hs. unfold fs.writeFileSync, fs.is_directory.
  rewrite Hnone, (dirname_STATS _ Hslash), Hdir, orb_true_r.
  rewrite readJSON_loaded. unfold loaded. cbn [set_disk disk].
  rewrite lookup_insert_eq, Hp. cbn [from_option id].
  unfold lift. by rewrite Hg.
Qed.

Lemma updateCallback_creates_statistics_witness :
  updateCallback () march_2024
  = (Normal (empty_statistics, JArray [] ∅),
     set_disk (<[STATS +:+ "03.2024.json" := File empty_statistics_text]> (disk march_2024))
       march_2024)
  ∧ JSON.parse empty_statistics_text = Some empty_statistics.
Proof.
  apply (updateCallback_creates_statistics () march_2024 "03.2024.json"); reflexivity.
Defined.

(** C8.  For a command name that is not empty and not one of [update],
    [get], [set], and a configuration file (if there is one) whose text
    the model covers, no handler runs: the invocation ends with one
    diagnostic (the unknown command, or the wrong format when the
    configuration is falsy), requests nothing, and leaves the file system
    as the start-up left it.  When [config.json] and [./stats/] exist the
    file system is unchanged. *)
Theorem unknown_command_reported (command : string) (args : list string) (w : world) :
  command ≠ EmptyString → command ≠ UPDATE → command ≠ GET → command ≠ SET →
  config_covered w = true →
  ∃ w', npmStatistic (command :: args) w = (Normal (), w')
        ∧ disk w' = disk (booted w)
        ∧ requests w' = requests w
        ∧ console w' =
            console (booted w)
            ++ [if ToBoolean (loaded CONFIG (disk w')) then unknown_command command
                else wrong_config]
        ∧ (is_Some (disk w !! CONFIG) → is_Some (disk w !! STATS) →
           disk w' = disk w
           ∧ console w' =
               console w ++ [if ToBoolean (loaded CONFIG (disk w)) then unknown_command command
                             else wrong_config]).
Proof.
  intros Hne Hu Hg Hs Hcovered.
  rewrite npmStatistic_run_command by done. cbn zeta.
  rewrite COMMANDS_unknown by done.
  destruct (booted_frame w) as [Hr _].
  destruct (ToBoolean (loaded CONFIG (disk (booted w)))) eqn:Ht; cbn [negb];
    (eexists; split; [reflexivity|]); cbn [disk console requests print snd];
    rewrite Ht; (split; [done|]); (split; [done|]); (split; [done|]);
    intros Hc Hd; rewrite (booted_idle w Hc Hd) in *; by rewrite Ht.
Qed.

Lemma unknown_command_reported_witness :
  ∃ w', npmStatistic ["foo"; "bar"] (world_with_config "{}") = (Normal (), w')
        ∧ disk w' = disk (booted (world_with_config "{}"))
        ∧ requests w' = requests (world_with_config "{}")
        ∧ console w' =
            console (booted (world_with_config "{}"))
            ++ [if ToBoolean (loaded CONFIG (disk w')) then unknown_command "foo"
                else wrong_config]
        ∧ (is_Some (disk (world_with_config "{}") !! CONFIG) →
           is_Some (disk (world_with_config "{}") !! STATS) →
           disk w' = disk (world_with_config "{}")
           ∧ console w' =
               console (world_with_config "{}")
               ++ [if ToBoolean (loaded CONFIG (disk (world_with_config "{}")))
                   then unknown_command "foo" else wrong_config]).
Proof.
  apply (unknown_command_reported "foo" ["bar"] (world_with_config "{}"));
    try discriminate; reflexivity.
Defined.

(** C8, as stated, fails in two ways.  In a directory without
    [config.json] the unknown command is reported after the start-up has
    created the configuration file and the statistics directory.  The
    empty command name is outside [update], [get], [set], yet it is not
    reported as unknown: it runs [update], which on a configuration
    without packages returns without a diagnostic. *)
Lemma unknown_command_has_effects :
  disk fresh_world !! CONFIG = None
  ∧ disk fresh_world !! STATS = None
  ∧ (∃ w', npmStatistic ["foo"] fresh_world = (Normal (), w')
           ∧ disk w' !! CONFIG = Some (File "{}")
           ∧ disk w' !! STATS = Some Directory
           ∧ console w' = [empty_config_notice; unknown_command "foo"])
  ∧ EmptyString ≠ UPDATE ∧ EmptyString ≠ GET ∧ EmptyString ≠ SET
  ∧ npmStatistic [EmptyString] (world_with_config "{}")
    = (Normal (), world_with_config "{}")
  ∧ console (world_with_config "{}") = [].
Proof.
  split; [done|]. split; [done|]. split.
  - eexists. split; [vm_compute; reflexivity|]. done.
  - split; [discriminate|]. split; [discriminate|]. split; [discriminate|].
    split; [vm_compute; reflexivity|reflexivity].
Qed.







(** * Further properties of the program *)

(** ** Reading and writing documents *)

Lemma writeFileSync_run path data w :
  fs.is_directory (disk w) path = false →
  dirname path = EmptyString ∨ fs.is_directory (disk w) (dirname path) = true →
  fs.writeFileSync path data w = (Normal (), set_disk (<[path:=File data]> (disk w)) w).
Proof.
  intros Hfile Hdir. unfold fs.writeFileSync. rewrite Hfile.
  destruct Hdir as [-> | ->]; [done|]. by rewrite orb_true_r.
Qed.

(** X1.  What [readJSON] has loaded, [writeJSON] writes so that
    [readJSON] loads it again.  For the document of a text that the model
    covers, a path that is not a directory and whose directory exists,
    [writeJSON] replaces the file at the path and changes nothing else,
    and [readJSON] then returns the document. *)
Theorem writeJSON_readJSON (name source : string) (data : value) (w : world) :
  JSON.covered source = true →
  JSON.parse source = Some data →
  fs.is_directory (disk w) name = false →
  dirname name = EmptyString ∨ fs.is_directory (disk w) (dirname name) = true →
  ∃ w1,
    writeJSON name data w = (Normal (), w1)
    ∧ (∀ path, path ≠ name → disk w1 !! path = disk w !! path)
    ∧ console w1 = console w
    ∧ requests w1 = requests w
    ∧ readJSON name w1 = (Normal data, w1).
Proof.
  intros Hcovered Hparse Hfile Hdir.
  pose proof (JSON_parse_json _ _ Hparse) as Hj.
  destruct (stringify_json data Hj) as (text & Hs & Hback).
  exists (set_disk (<[name:=File text]> (disk w)) w).
  unfold writeJSON. rewrite Hs, (writeFileSync_run _ _ _ Hfile Hdir).
  split; [done|]. cbn [set_disk disk console requests].
  split; [intros path Hne; by rewrite lookup_insert_ne|].
  split; [done|]. split; [done|].
  rewrite readJSON_loaded. unfold loaded. cbn [set_disk disk].
  by rewrite lookup_insert_eq, Hback.
Qed.

Lemma writeJSON_readJSON_witness :
  ∃ w1,
    writeJSON CONFIG sample_config fresh_world = (Normal (), w1)
    ∧ (∀ path, path ≠ CONFIG → disk w1 !! path = disk fresh_world !! path)
    ∧ console w1 = console fresh_world
    ∧ requests w1 = requests fresh_world
    ∧ readJSON CONFIG w1 = (Normal sample_config, w1).
Proof.
  apply (writeJSON_readJSON CONFIG sample_config_text sample_config fresh_world).
  - reflexivity.
  - vm_compute. reflexivity.
  - reflexivity.
  - left. reflexivity.
Defined.

(** X2.  [readJSON] never throws and changes nothing.  For a file whose
    text the model covers it returns the parsed document when the text is
    JSON and [null] when it is not; for a missing path and for a
    directory it returns [null]. *)
Theorem readJSON_never_throws (name : string) (w : world) :
  ∃ v, readJSON name w = (Normal v, w)
       ∧ match disk w !! name with
         | Some (File text) =>
             if JSON.covered text then
               match JSON.parse text with
               | Some document => v = document
               | None => v = JNull
               end
             else True
         | Some Directory | None => v = JNull
         end.
Proof.
  exists (loaded name (disk w)). split; [apply readJSON_loaded|].
  unfold loaded. destruct (disk w !! name) as [[text|]|]; [|done..].
  destruct (JSON.covered text); [|done]. by destruct (JSON.parse text).
Qed.

(** ** The start-up *)

Lemma booted_fresh w :
  disk w !! CONFIG = None → disk w !! STATS = None → booted w = bootstrapped w.
Proof.
  intros Hc Hs. unfold booted. rewrite Hc. cbn [disk].
  rewrite lookup_insert_ne by done. by rewrite Hs.
Qed.

Lemma loaded_bootstrapped w : loaded CONFIG (disk (bootstrapped w)) = JObject ∅.
Proof.
  unfold loaded, bootstrapped. cbn [disk].
  rewrite lookup_insert_ne by done. by rewrite lookup_insert_eq.
Qed.

Lemma bootstrapped_booted w : booted (bootstrapped w) = bootstrapped w.
Proof.
  apply booted_idle; unfold bootstrapped; cbn [disk].
  - rewrite lookup_insert_ne by done. rewrite lookup_insert_eq. eauto.
  - rewrite lookup_insert_eq. eauto.
Qed.

(** X3.  The first run in a directory that has neither [config.json] nor
    [./stats/] creates the configuration file with the text of the empty
    object and the statistics directory, and announces the new
    configuration.  With no argument it then runs [update], which has
    nothing to request; [get] prints the empty object.  A second run finds
    both and changes nothing. *)
Theorem first_run_bootstraps (w : world) :
  disk w !! CONFIG = None → disk w !! STATS = None →
  npmStatistic [] w = (Normal (), bootstrapped w)
  ∧ npmStatistic [GET] w = print (Log "{}") (bootstrapped w)
  ∧ npmStatistic [] (bootstrapped w) = (Normal (), bootstrapped w).
Proof.
  intros Hc Hs.
  rewrite !npmStatistic_run. cbn zeta.
  rewrite bootstrapped_booted, (booted_fresh w Hc Hs), loaded_bootstrapped.
  cbn [ToBoolean negb tail].
  change (if String.eqb GET EmptyString then UPDATE else GET) with GET.
  by rewrite COMMANDS_UPDATE_lookup, COMMANDS_GET_lookup.
Qed.

Lemma first_run_bootstraps_witness :
  npmStatistic [] fresh_world = (Normal (), bootstrapped fresh_world)
  ∧ npmStatistic [GET] fresh_world = print (Log "{}") (bootstrapped fresh_world)
  ∧ npmStatistic [] (bootstrapped fresh_world) = (Normal (), bootstrapped fresh_world).
Proof. apply (first_run_bootstraps fresh_world); reflexivity. Defined.

(** X4.  A [config.json] that is a directory is a wrong configuration:
    the invocation reports the wrong format and runs no handler, whatever
    the command. *)
Theorem config_directory_is_wrong_format (args : list string) (w : world) :
  disk w !! CONFIG = Some Directory →
  npmStatistic args w = print wrong_config (booted w)
  ∧ disk (booted w) !! CONFIG = Some Directory
  ∧ console (booted w) = console w
  ∧ requests (booted w) = requests w.
Proof.
  intros Hc.
  assert (disk (booted w) !! CONFIG = Some Directory
          ∧ console (booted w) = console w ∧ requests (booted w) = requests w)
    as (Hd & Hcon & Hreq).
  { unfold booted. rewrite Hc. destruct (disk w !! STATS) eqn:Hs; [done|].
    cbn [set_disk disk console requests]. by rewrite lookup_insert_ne. }
  split; [|done].
  rewrite npmStatistic_run. cbn zeta. unfold loaded. by rewrite Hd.
Qed.

Lemma config_directory_is_wrong_format_witness :
  npmStatistic [GET] config_is_directory = print wrong_config (booted config_is_directory)
  ∧ disk (booted config_is_directory) !! CONFIG = Some Directory
  ∧ console (booted config_is_directory) = console config_is_directory
  ∧ requests (booted config_is_directory) = requests config_is_directory.
Proof. apply (config_directory_is_wrong_format [GET] config_is_directory). reflexivity. Defined.

(** ** The [get] command *)

Lemma print_run o w :
  print o w = (Normal (), {| disk := disk w; console := console w ++ [o];
                             requests := requests w; clock := clock w |}).
Proof. reflexivity. Qed.

Lemma booted_console w : console (booted w) = console w ++ startup_output w.
Proof.
  unfold booted, startup_output.
  destruct (disk w !! CONFIG); cbn [disk console];
    destruct (_ !! STATS); cbn [set_disk console]; by rewrite ?app_nil_r.
Qed.

(** X5.  [get] only reads.  Whatever its arguments, and whatever the
    directory holds other than a regular file in the place of [./stats/],
    it returns without throwing, prints exactly one line after what the
    start-up printed (the notice, when [config.json] was missing),
    requests nothing, and leaves the file system as the start-up left it,
    hence unchanged when [config.json] and [./stats/] exist. *)
Theorem get_only_reads (args : list string) (w : world) :
  is_regular_file (disk w) STATS = false →
  ∃ line w',
    npmStatistic (GET :: args) w = (Normal (), w')
    ∧ disk w' = disk (booted w)
    ∧ console w' = console w ++ startup_output w ++ [line]
    ∧ requests w' = requests w
    ∧ match disk w !! CONFIG, disk w !! STATS with
      | Some _, Some _ => disk w' = disk w ∧ console w' = console w ++ [line]
      | _, _ => True
      end.
Proof.
  intros Hstats.
  rewrite npmStatistic_run_command by done. cbn zeta.
  rewrite COMMANDS_GET_lookup.
  destruct (booted_frame w) as [Hr _].
  assert (∀ line, ∃ line' w',
    print line (booted w) = (Normal (), w')
    ∧ disk w' = disk (booted w)
    ∧ console w' = console w ++ startup_output w ++ [line']
    ∧ requests w' = requests w
    ∧ match disk w !! CONFIG, disk w !! STATS with
      | Some _, Some _ => disk w' = disk w ∧ console w' = console w ++ [line']
      | _, _ => True
      end) as Hprint.
  { intros line. exists line. eexists. split; [apply print_run|].
    cbn [disk console requests]. rewrite booted_console, <- app_assoc.
    repeat (split; [done|]).
    destruct (disk w !! CONFIG) eqn:Hc; [|done].
    destruct (disk w !! STATS) eqn:Hs; [|done].
    rewrite (booted_idle w) by (by rewrite ?Hc, ?Hs).
    unfold startup_output. by rewrite Hc. }
  destruct (negb _); [apply Hprint|].
  unfold COMMANDS_GET, mbind, M_bind, lift.
  destruct (getJsonPart_total
              match args with [] => [] | arg0 :: _ => split "." arg0 end
              (loaded CONFIG (disk (booted w)))) as [part ->].
  apply Hprint.
Qed.

Lemma get_only_reads_witness :
  ∃ line w',
    npmStatistic [GET; "a"] fresh_world = (Normal (), w')
    ∧ disk w' = disk (booted fresh_world)
    ∧ console w' = console fresh_world ++ startup_output fresh_world ++ [line]
    ∧ requests w' = requests fresh_world
    ∧ True.
Proof. apply (get_only_reads ["a"] fresh_world). reflexivity. Defined.

Lemma getJsonPart_json keys : ∀ json part,
  is_json json → getJsonPart json keys = Normal part →
  part = JUndefined ∨ is_json part.
Proof.
  induction keys as [|key keys IH]; intros json part Hj Hget.
  - injection Hget as <-. by right.
  - rewrite getJsonPart_cons in Hget.
    destruct (ToBoolean json); [|injection Hget as <-; by left].
    destruct (own_property json key) as [child|] eqn:Hown;
      [|injection Hget as <-; by left].
    eauto using is_json_own_property.
Qed.

(** X6.  For a configuration whose text the model covers, [get] prints
    the value found at the path as JSON text: the line parses back to
    that value, and is [undefined] when the path leads nowhere.  With no
    path it prints the whole configuration. *)
Theorem get_prints_value (w : world) (text : string) (config : value) (args : list string) :
  disk w !! CONFIG = Some (File text) →
  JSON.covered text = true →
  JSON.parse text = Some config →
  ToBoolean config = true →
  ∃ part out,
    getJsonPart config (get_keys args) = Normal part
    ∧ npmStatistic (GET :: args) w = print (Log out) (booted w)
    ∧ match part with
      | JUndefined => out = "undefined"
      | _ => JSON.parse out = Some part
      end
    ∧ match args with
      | [] => part = config
      | _ => True
      end.
Proof.
  intros Hfile Hcovered Hparse Ht.
  destruct (booted_with_config w text Hfile) as (Hf & _).
  destruct (getJsonPart_total (get_keys args) config) as [part Hpart].
  exists part, (show (JSON.stringify part)). split; [done|]. split; [|split].
  - rewrite npmStatistic_run_command by done. cbn zeta.
    rewrite (loaded_with_config _ text) by done.
    rewrite Hparse. cbn [from_option id]. rewrite Ht. cbn [negb].
    rewrite COMMANDS_GET_lookup. unfold COMMANDS_GET.
    fold (get_keys args). unfold mbind, M_bind, lift. by rewrite Hpart.
  - destruct (getJsonPart_json _ _ _ (JSON_parse_json _ _ Hparse) Hpart) as [->|Hj];
      [done|].
    destruct (stringify_json part Hj) as (out & -> & Hout).
    pose proof (is_json_defined _ Hj) as Hdef.
    unfold show. cbn [from_option id]. by destruct part.
  - destruct args; [|done]. cbn in Hpart. by injection Hpart as <-.
Qed.

Lemma get_prints_value_witness :
  ∃ part out,
    getJsonPart sample_config (get_keys ["a.0"]) = Normal part
    ∧ npmStatistic [GET; "a.0"] (world_with_config sample_config_text)
      = print (Log out) (booted (world_with_config sample_config_text))
    ∧ match part with
      | JUndefined => out = "undefined"
      | _ => JSON.parse out = Some part
      end
    ∧ True.
Proof.
  apply (get_prints_value (world_with_config sample_config_text) sample_config_text
           sample_config ["a.0"]); reflexivity.
Defined.

(** ** The [set] command *)

(** X7.  [set] with fewer than two arguments assigns nothing: for a
    configuration file (if there is one) whose text the model covers, it
    prints that the arguments are not enough (or the wrong format, when
    the configuration is falsy), requests nothing and leaves the file
    system as the start-up left it. *)
Theorem set_needs_two_arguments (args : list string) (w : world) :
  length args < 2 →
  config_covered w = true →
  npmStatistic (SET :: args) w
  = print (if ToBoolean (loaded CONFIG (disk (booted w))) then not_enough_args
           else wrong_config) (booted w).
Proof.
  intros Hlen Hcovered. rewrite npmStatistic_run_command by done. cbn zeta.
  rewrite COMMANDS_SET_lookup.
  destruct (ToBoolean _); cbn [negb]; [|done].
  destruct args as [|arg0 [|arg1 rest]]; [done..|]. cbn in Hlen. lia.
Qed.

Lemma set_needs_two_arguments_witness :
  npmStatistic [SET; "a"] (world_with_config sample_config_text)
  = print (if ToBoolean (loaded CONFIG (disk (booted (world_with_config sample_config_text))))
           then not_enough_args else wrong_config)
      (booted (world_with_config sample_config_text)).
Proof.
  apply (set_needs_two_arguments ["a"] (world_with_config sample_config_text)).
  - cbn. lia.
  - reflexivity.
Defined.

(** ** The [update] command *)

Lemma update_run args w text config :
  disk w !! CONFIG = Some (File text) → JSON.parse text = Some config →
  ToBoolean config = true →
  npmStatistic [] w = COMMANDS_UPDATE [] config (booted w)
  ∧ npmStatistic (UPDATE :: args) w = COMMANDS_UPDATE args config (booted w).
Proof.
  intros Hfile Hparse Ht.
  destruct (booted_with_config w text Hfile) as (Hf & _).
  rewrite !npmStatistic_run. cbn zeta.
  rewrite (loaded_with_config _ text) by done.
  rewrite Hparse. cbn [from_option id]. rewrite Ht. cbn [negb tail].
  change (if String.eqb UPDATE EmptyString then UPDATE else UPDATE) with UPDATE.
  by rewrite COMMANDS_UPDATE_lookup.
Qed.

Lemma packages_owner config p :
  own_property config "packages" = Some p → ToBoolean config = true.
Proof. destruct config as [| |b|n|s|elems named|props]; try done. Qed.

(** X8.  With nothing to follow, [update] does nothing.  When the
    configuration has no [packages], a falsy one, or an empty array,
    [update] (also as the default command of an invocation without
    arguments) returns without printing or requesting anything, and
    leaves the file system as the start-up left it. *)
Theorem update_without_packages (w : world) (text : string) (config : value)
    (args : list string) :
  disk w !! CONFIG = Some (File text) →
  JSON.parse text = Some config →
  ToBoolean config = true →
  match own_property config "packages" with
  | Some p => ToBoolean p = false ∨ p = JArray [] ∅
  | None => True
  end →
  npmStatistic [] w = (Normal (), booted w)
  ∧ npmStatistic (UPDATE :: args) w = (Normal (), booted w).
Proof.
  intros Hfile Hparse Ht Hp.
  destruct (update_run args w text config Hfile Hparse Ht) as [-> ->].
  unfold COMMANDS_UPDATE, mbind, M_bind, lift.
  rewrite (Get_truthy _ _ Ht).
  destruct (own_property config "packages") as [p|]; cbn [from_option id ToBoolean].
  - destruct Hp as [-> | ->]; done.
  - done.
Qed.

Lemma update_without_packages_witness :
  npmStatistic [] (world_with_config sample_config_text)
  = (Normal (), booted (world_with_config sample_config_text))
  ∧ npmStatistic [UPDATE; "now"] (world_with_config sample_config_text)
    = (Normal (), booted (world_with_config sample_config_text)).
Proof.
  apply (update_without_packages (world_with_config sample_config_text) sample_config_text
           sample_config ["now"]); reflexivity.
Defined.

(** X9.  A truthy [packages] that is not an array stops [update]: it has
    no [map] to call, so the invocation throws a [TypeError] before any
    request is made or anything is printed. *)
Theorem update_packages_not_array (w : world) (text : string) (config p : value)
    (args : list string) :
  disk w !! CONFIG = Some (File text) →
  JSON.parse text = Some config →
  own_property config "packages" = Some p →
  ToBoolean p = true →
  is_array p = false →
  npmStatistic [] w = (Throw TypeError, booted w)
  ∧ npmStatistic (UPDATE :: args) w = (Throw TypeError, booted w)
  ∧ requests (booted w) = requests w
  ∧ console (booted w) = console w.
Proof.
  intros Hfile Hparse Hown Hp Harr.
  pose proof (packages_owner _ _ Hown) as Ht.
  destruct (update_run args w text config Hfile Hparse Ht) as [-> ->].
  destruct (booted_with_config w text Hfile) as (_ & _ & Hc & Hr & _).
  unfold COMMANDS_UPDATE, mbind, M_bind, lift.
  rewrite (Get_truthy _ _ Ht), Hown. cbn [from_option id]. rewrite Hp.
  by destruct p.
Qed.

Lemma update_packages_not_array_witness :
  npmStatistic [] (world_with_config number_packages_text)
  = (Throw TypeError, booted (world_with_config number_packages_text))
  ∧ npmStatistic [UPDATE] (world_with_config number_packages_text)
    = (Throw TypeError, booted (world_with_config number_packages_text))
  ∧ requests (booted (world_with_config number_packages_text))
    = requests (world_with_config number_packages_text)
  ∧ console (booted (world_with_config number_packages_text))
    = console (world_with_config number_packages_text).
Proof.
  apply (update_packages_not_array (world_with_config number_packages_text)
           number_packages_text (JObject {[ "packages" := JNumber 5 ]}) (JNumber 5) []);
    reflexivity.
Defined.

Lemma sequence_throws {A : Type} (l : list (completion A)) :
  (∀ c, c ∈ l → c = Throw TypeError ∨ ∃ a, c = Normal a) →
  Throw TypeError ∈ l →
  sequence l = Throw TypeError.
Proof.
  induction l as [|c l IH]; intros Hall Hin; [by apply elem_of_nil in Hin|].
  cbn [sequence].
  destruct (Hall c) as [-> | [a ->]]; [by left|done|].
  apply elem_of_cons in Hin as [?|Hin]; [done|].
  unfold mbind, completion_bind. rewrite IH; [done| |done].
  intros c' Hc'. apply Hall. by right.
Qed.

Lemma names_of_packages (packs : list value) :
  (∀ x, x ∈ packs → is_json x) →
  ∀ c, c ∈ (λ x, match x with
                 | JUndefined => Normal JUndefined
                 | _ => Get x "name"
                 end) <$> packs →
       c = Throw TypeError ∨ ∃ a, c = Normal a.
Proof.
  intros Hj c Hc. apply list_elem_of_fmap in Hc as (x & -> & Hx).
  destruct x; eauto.
Qed.

(** X10.  The names of all the packages are read before the first
    request is made: an entry of [packages] that is [null] stops [update]
    with a [TypeError], and no page is requested, not even for the
    entries before it. *)
Theorem update_null_package (w : world) (text : string) (config : value)
    (packs : list value) (named : gmap string value) (args : list string) :
  disk w !! CONFIG = Some (File text) →
  JSON.parse text = Some config →
  own_property config "packages" = Some (JArray packs named) →
  existsb is_null packs = true →
  npmStatistic [] w = (Throw TypeError, booted w)
  ∧ npmStatistic (UPDATE :: args) w = (Throw TypeError, booted w)
  ∧ requests (booted w) = requests w
  ∧ console (booted w) = console w.
Proof.
  intros Hfile Hparse Hown Hnull.
  pose proof (packages_owner _ _ Hown) as Ht.
  destruct (update_run args w text config Hfile Hparse Ht) as [-> ->].
  destruct (booted_with_config w text Hfile) as (_ & _ & Hc & Hr & _).
  pose proof (is_json_own_property _ _ _ (JSON_parse_json _ _ Hparse) Hown) as Hj.
  inversion Hj as [| | | |elems Helems|]; subst.
  unfold COMMANDS_UPDATE, mbind, M_bind, lift.
  rewrite (Get_truthy _ _ Ht), Hown. cbn [from_option id ToBoolean Array_map].
  rewrite lookup_empty, sequence_throws; [done|by apply names_of_packages|].
  apply existsb_exists in Hnull as (x & Hx & Hn).
  apply list_elem_of_fmap. exists x. split; [by destruct x|by apply list_elem_of_In].
Qed.

Lemma update_null_package_witness :
  npmStatistic [] (world_with_config null_package_text)
  = (Throw TypeError, booted (world_with_config null_package_text))
  ∧ npmStatistic [UPDATE] (world_with_config null_package_text)
    = (Throw TypeError, booted (world_with_config null_package_text))
  ∧ requests (booted (world_with_config null_package_text))
    = requests (world_with_config null_package_text)
  ∧ console (booted (world_with_config null_package_text))
    = console (world_with_config null_package_text).
Proof.
  apply (update_null_package (world_with_config null_package_text) null_package_text
           (JObject {[ "packages" := JArray [left_pad; JNull] ∅ ]})
           [left_pad; JNull] ∅ []).
  - reflexivity.
  - vm_compute. reflexivity.
  - reflexivity.
  - reflexivity.
Defined.

Lemma http_get_refused text w :
  http_get ("https://www.npmjs.com/package/" +:+ text) w
  = (Throw (SystemError "ERR_INVALID_PROTOCOL"), w).
Proof. unfold http_get. by rewrite !append_cons. Qed.

Lemma updatePackage_outcome name w : ∃ e, updatePackage name w = (Throw e, w).
Proof.
  unfold updatePackage, mbind, M_bind, lift.
  destruct (ToString name) as [text|e]; [|by eexists].
  rewrite http_get_refused. by eexists.
Qed.

Lemma names_read (packs : list value) :
  (∀ x, x ∈ packs → is_json x) → existsb is_null packs = false →
  sequence ((λ x, match x with
                  | JUndefined => Normal JUndefined
                  | _ => Get x "name"
                  end) <$> packs)
  = Normal ((λ x, default JUndefined (own_property x "name")) <$> packs).
Proof.
  induction packs as [|x packs IH]; intros Hj Hnull; [done|].
  cbn [existsb] in Hnull. apply orb_false_elim in Hnull as [Hx Hnull].
  cbn [fmap list_fmap sequence]. unfold mbind, completion_bind.
  rewrite (IH (λ y Hy, Hj y (list_elem_of_further _ _ _ Hy)) Hnull).
  pose proof (is_json_defined _ (Hj x (list_elem_of_here _ _))) as Hdef.
  by destruct x.
Qed.

(** X24.  [update] cannot request a page.  The address of every page is
    under [https:], and [http.get] serves [http:] only: whenever
    [packages] is an array that is not empty, [update] (also as the
    default command) throws, at the latest at the first package, and no
    request is made. *)
Theorem update_request_refused (w : world) (text : string) (config pack : value)
    (packs : list value) (named : gmap string value) (args : list string) :
  disk w !! CONFIG = Some (File text) →
  JSON.parse text = Some config →
  own_property config "packages" = Some (JArray (pack :: packs) named) →
  ∃ e e',
    npmStatistic [] w = (Throw e, booted w)
    ∧ npmStatistic (UPDATE :: args) w = (Throw e', booted w)
    ∧ requests (booted w) = requests w
    ∧ console (booted w) = console w.
Proof.
  intros Hfile Hparse Hown.
  pose proof (packages_owner _ _ Hown) as Ht.
  destruct (update_run args w text config Hfile Hparse Ht) as [-> ->].
  destruct (booted_with_config w text Hfile) as (_ & _ & Hc & Hr & _).
  pose proof (is_json_own_property _ _ _ (JSON_parse_json _ _ Hparse) Hown) as Hj.
  inversion Hj as [| | | |elems Helems|]; subst.
  assert (∀ args', ∃ e, COMMANDS_UPDATE args' config (booted w) = (Throw e, booted w))
    as Hthrows.
  { intros args'. unfold COMMANDS_UPDATE, mbind, M_bind, lift.
    rewrite (Get_truthy _ _ Ht), Hown. cbn [from_option id ToBoolean Array_map].
    rewrite lookup_empty.
    destruct (existsb is_null (pack :: packs)) eqn:Hnull.
    - rewrite sequence_throws; [by eexists|by apply names_of_packages|].
      apply existsb_exists in Hnull as (x & Hx & Hn).
      apply list_elem_of_fmap. exists x. split; [by destruct x|by apply list_elem_of_In].
    - rewrite (names_read _ Helems Hnull). cbn [fmap list_fmap for_of].
      unfold mbind, M_bind.
      destruct (updatePackage_outcome (default JUndefined (own_property pack "name"))
                  (booted w)) as [e ->].
      by eexists. }
  destruct (Hthrows []) as [e He]. destruct (Hthrows args) as [e' He'].
  exists e, e'. by rewrite He, He'.
Qed.

Lemma update_request_refused_witness :
  ∃ e e',
    npmStatistic [] (world_with_config packages_config_text)
    = (Throw e, booted (world_with_config packages_config_text))
    ∧ npmStatistic [UPDATE] (world_with_config packages_config_text)
      = (Throw e', booted (world_with_config packages_config_text))
    ∧ requests (booted (world_with_config packages_config_text))
      = requests (world_with_config packages_config_text)
    ∧ console (booted (world_with_config packages_config_text))
      = console (world_with_config packages_config_text).
Proof.
  apply (update_request_refused (world_with_config packages_config_text)
           packages_config_text (JObject {[ "packages" := JArray [left_pad] ∅ ]})
           left_pad [] ∅ []).
  - reflexivity.
  - vm_compute. reflexivity.
  - reflexivity.
Defined.

(** ** The callback of a request *)

Lemma getStatName_total w : ∃ name, getStatName w = (Normal name, w).
Proof. rewrite getStatName_run. by eexists. Qed.

(** What [updateCallback] does, by what the path of the statistics file
    of the month holds. *)
Lemma updateCallback_run res w name :
  getStatName w = (Normal name, w) →
  updateCallback res w =
  match disk w !! (STATS +:+ name) with
  | Some _ =>
      match Get (loaded (STATS +:+ name) (disk w)) "packages" with
      | Normal packages => (Normal (loaded (STATS +:+ name) (disk w), packages), w)
      | Throw e => (Throw e, w)
      end
  | None =>
      if fs.is_directory (disk w) STATS
      then (Normal (empty_statistics, JArray [] ∅),
            set_disk (<[STATS +:+ name := File empty_statistics_text]> (disk w)) w)
      else (Throw (SystemError "ENOENT"), w)
  end.
Proof.
  intros Hname.
  pose proof (getStatName_no_slash _ _ Hname) as Hslash.
  destruct empty_statistics_written as (Hs & Hp & Hg).
  unfold updateCallback, mbind, M_bind. rewrite Hname.
  unfold try_catch, fs.accessSync.
  destruct (disk w !! (STATS +:+ name)) as [n|] eqn:Hfile.
  - rewrite readJSON_loaded. unfold lift.
    by destruct (Get (loaded (STATS +:+ name) (disk w)) "packages").
  - change (JObject {[ "packages" := JArray [] ∅ ]}) with empty_statistics.
    unfold writeJSON. rewrite Hs. unfold fs.writeFileSync.
    unfold fs.is_directory at 1. rewrite Hfile, (dirname_STATS _ Hslash).
    change (String.eqb STATS EmptyString) with false. cbn [orb].
    destruct (fs.is_directory (disk w) STATS); [|done].
    rewrite readJSON_loaded. unfold loaded. cbn [set_disk disk].
    rewrite lookup_insert_eq, Hp. cbn [from_option id].
    unfold lift. by rewrite Hg.
Qed.

(** X11.  Statistics that exist are kept.  When the statistics file of
    the month holds a document other than [null], [updateCallback] writes
    nothing: it loads that document and takes its [packages]
    ([undefined] when it has none). *)
Theorem updateCallback_keeps_statistics (res : ServerResponse) (w : world)
    (name text : string) (stat : value) :
  getStatName w = (Normal name, w) →
  disk w !! (STATS +:+ name) = Some (File text) →
  JSON.parse text = Some stat →
  is_null stat = false →
  updateCallback res w
  = (Normal (stat, default JUndefined (own_property stat "packages")), w).
Proof.
  intros Hname Hfile Hparse Hnull.
  rewrite (updateCallback_run res w name Hname), Hfile.
  unfold loaded. rewrite Hfile, Hparse. cbn [from_option id].
  pose proof (is_json_defined _ (JSON_parse_json _ _ Hparse)) as Hdef.
  by destruct stat.
Qed.

Lemma updateCallback_keeps_statistics_witness :
  updateCallback () (march_2024_with packages_config_text)
  = (Normal (JObject {[ "packages" := JArray [left_pad] ∅ ]},
             default JUndefined
               (own_property (JObject {[ "packages" := JArray [left_pad] ∅ ]}) "packages")),
     march_2024_with packages_config_text).
Proof.
  apply (updateCallback_keeps_statistics () (march_2024_with packages_config_text)
           "03.2024.json" packages_config_text
           (JObject {[ "packages" := JArray [left_pad] ∅ ]}));
    reflexivity.
Defined.

(** X12.  Statistics that cannot be used stop the callback.  When the
    path of the statistics file of the month is a directory, or a file
    whose text (one that the model covers) is not JSON or is [null],
    [updateCallback] throws a [TypeError] on reading [packages] and
    changes nothing. *)
Theorem updateCallback_broken_statistics (res : ServerResponse) (w : world)
    (name : string) (n : node) :
  getStatName w = (Normal name, w) →
  disk w !! (STATS +:+ name) = Some n →
  match n with
  | File text =>
      JSON.covered text = true ∧ is_null (default JNull (JSON.parse text)) = true
  | Directory => True
  end →
  updateCallback res w = (Throw TypeError, w).
Proof.
  intros Hname Hfile Hn.
  rewrite (updateCallback_run res w name Hname), Hfile.
  unfold loaded. rewrite Hfile.
  destruct n as [text|]; [|done]. destruct Hn as [_ Hn].
  by destruct (default JNull (JSON.parse text)).
Qed.

Lemma updateCallback_broken_statistics_witness :
  updateCallback () (march_2024_with "{") = (Throw TypeError, march_2024_with "{").
Proof.
  apply (updateCallback_broken_statistics () (march_2024_with "{") "03.2024.json" (File "{")).
  - reflexivity.
  - reflexivity.
  - split; reflexivity.
Defined.

(** X13.  Without the [./stats/] directory the statistics file cannot be
    created: [updateCallback] throws the error of the write and changes
    nothing. *)
Theorem updateCallback_without_directory (res : ServerResponse) (w : world) (name : string) :
  getStatName w = (Normal name, w) →
  disk w !! (STATS +:+ name) = None →
  disk w !! STATS = None →
  updateCallback res w = (Throw (SystemError "ENOENT"), w).
Proof.
  intros Hname Hfile Hdir.
  rewrite (updateCallback_run res w name Hname), Hfile.
  unfold fs.is_directory. by rewrite Hdir.
Qed.

Lemma updateCallback_without_directory_witness :
  updateCallback () no_statistics_directory
  = (Throw (SystemError "ENOENT"), no_statistics_directory).
Proof.
  apply (updateCallback_without_directory () no_statistics_directory "03.2024.json");
    reflexivity.
Defined.

(** X14.  [updateCallback] is idempotent: after a call that returned, a
    second call returns the same statistics and changes nothing. *)
Theorem updateCallback_twice (res res' : ServerResponse) (w w1 : world)
    (result : value * value) :
  updateCallback res w = (Normal result, w1) →
  updateCallback res' w1 = (Normal result, w1).
Proof.
  destruct (getStatName_total w) as [name Hname].
  rewrite (updateCallback_run res w name Hname).
  destruct (disk w !! (STATS +:+ name)) as [n|] eqn:Hfile.
  - destruct (Get _ "packages") as [packages|e] eqn:Hget; [|done].
    intros [= <- <-].
    by rewrite (updateCallback_run res' w name Hname), Hfile, Hget.
  - destruct (fs.is_directory (disk w) STATS); [|done].
    intros [= <- <-].
    assert (getStatName (set_disk (<[STATS +:+ name:=File empty_statistics_text]> (disk w)) w)
            = (Normal name,
               set_disk (<[STATS +:+ name:=File empty_statistics_text]> (disk w)) w))
      as Hname'.
    { rewrite getStatName_run in *. cbn [set_disk clock]. by injection Hname as ->. }
    rewrite (updateCallback_run res' _ name Hname').
    destruct empty_statistics_written as (_ & Hp & Hg).
    unfold loaded. cbn [set_disk disk]. rewrite lookup_insert_eq, Hp.
    cbn [from_option id]. by rewrite Hg.
Qed.

Lemma updateCallback_twice_witness :
  updateCallback ()
    (set_disk (<[STATS +:+ "03.2024.json" := File empty_statistics_text]> (disk march_2024))
       march_2024)
  = (Normal (empty_statistics, JArray [] ∅),
     set_disk (<[STATS +:+ "03.2024.json" := File empty_statistics_text]> (disk march_2024))
       march_2024).
Proof.
  apply (updateCallback_twice () () march_2024). vm_compute. reflexivity.
Defined.

(** X15.  [updateCallback] touches at most the statistics file of the
    month: whatever its outcome, every other path of the file system is
    as before, nothing is printed and nothing is requested. *)
Theorem updateCallback_frame (res : ServerResponse) (w w1 : world) (name : string)
    (outcome : completion (value * value)) :
  getStatName w = (Normal name, w) →
  updateCallback res w = (outcome, w1) →
  (∀ path, path ≠ STATS +:+ name → disk w1 !! path = disk w !! path)
  ∧ console w1 = console w
  ∧ requests w1 = requests w
  ∧ clock w1 = clock w.
Proof.
  intros Hname. rewrite (updateCallback_run res w name Hname).
  destruct (disk w !! (STATS +:+ name)) as [n|].
  - destruct (Get _ "packages"); by intros [= <- <-].
  - destruct (fs.is_directory (disk w) STATS); intros [= <- <-]; [|done].
    cbn [set_disk disk console requests clock].
    split; [|done]. intros path Hne. by rewrite lookup_insert_ne.
Qed.

Lemma updateCallback_frame_witness :
  (∀ path, path ≠ STATS +:+ "03.2024.json" →
     disk (set_disk (<[STATS +:+ "03.2024.json" := File empty_statistics_text]>
                       (disk march_2024)) march_2024) !! path
     = disk march_2024 !! path)
  ∧ console (set_disk (<[STATS +:+ "03.2024.json" := File empty_statistics_text]>
                         (disk march_2024)) march_2024) = console march_2024
  ∧ requests (set_disk (<[STATS +:+ "03.2024.json" := File empty_statistics_text]>
                          (disk march_2024)) march_2024) = requests march_2024
  ∧ clock (set_disk (<[STATS +:+ "03.2024.json" := File empty_statistics_text]>
                       (disk march_2024)) march_2024) = clock march_2024.
Proof.
  apply (updateCallback_frame () march_2024 _ "03.2024.json"
           (Normal (empty_statistics, JArray [] ∅))).
  - reflexivity.
  - vm_compute. reflexivity.
Defined.

(** ** The name of the statistics file *)

Lemma append_inj_r s1 : ∀ s2 t, s1 +:+ t = s2 +:+ t → s1 = s2.
Proof.
  induction s1 as [|c s1 IH]; intros [|c' s2] t;
    rewrite ?append_cons, ?append_empty_l; intros Heq.
  - done.
  - apply (f_equal String.length) in Heq. cbn in Heq. rewrite length_append in Heq. lia.
  - apply (f_equal String.length) in Heq. cbn in Heq. rewrite length_append in Heq. lia.
  - injection Heq as -> Heq. by rewrite (IH _ _ Heq).
Qed.

Lemma padded_month_inj (m1 m2 : Z) (r1 r2 : string) :
  (0 ≤ m1 ≤ 11)%Z → (0 ≤ m2 ≤ 11)%Z →
  (if (m1 + 1 <? 10)%Z then "0" +:+ NumberToString (m1 + 1) else NumberToString (m1 + 1))
    +:+ r1
  = (if (m2 + 1 <? 10)%Z then "0" +:+ NumberToString (m2 + 1) else NumberToString (m2 + 1))
    +:+ r2 →
  m1 = m2 ∧ r1 = r2.
Proof.
  intros H1 H2.
  assert (∃ k : nat, k < 12 ∧ m1 = Z.of_nat k) as (k1 & Hk1 & ->)
    by (exists (Z.to_nat m1); lia).
  assert (∃ k : nat, k < 12 ∧ m2 = Z.of_nat k) as (k2 & Hk2 & ->)
    by (exists (Z.to_nat m2); lia).
  do 12 (destruct k1 as [|k1]; [
    do 12 (destruct k2 as [|k2]; [vm_compute; intros Heq; by simplify_eq|]); lia |]).
  lia.
Qed.

(** X16.  Different months have different statistics files: for months
    in their range, two clocks that differ in the month or in the year
    give different names. *)
Theorem getStatName_separates_months (w1 w2 : world) :
  (0 ≤ getMonth (clock w1) ≤ 11)%Z →
  (0 ≤ getMonth (clock w2) ≤ 11)%Z →
  clock w1 ≠ clock w2 →
  (getStatName w1).1 ≠ (getStatName w2).1.
Proof.
  intros H1 H2 Hne Heq. apply Hne.
  rewrite !getStatName_run in Heq. cbn [fst] in Heq. injection Heq as Heq.
  apply padded_month_inj in Heq as [Hm Heq]; [|done..].
  rewrite !append_cons, !append_empty_l in Heq. injection Heq as Heq.
  apply append_inj_r in Heq. unfold NumberToString in Heq. apply (inj pretty) in Heq.
  destruct (clock w1), (clock w2). cbn in *. by subst.
Qed.

Lemma getStatName_separates_months_witness :
  (getStatName march_2024).1 ≠ (getStatName december_2024).1.
Proof.
  apply (getStatName_separates_months march_2024 december_2024).
  - cbn. lia.
  - cbn. lia.
  - discriminate.
Defined.

(** ** Paths *)

(** X17.  Walking a path in two steps: the resolver on [keys ++ rest] is
    the resolver on [rest] from what [keys] leads to, and once a prefix
    leads to [undefined] so does every extension. *)
Theorem getJsonPart_in_two_steps (json : value) (keys rest : list string) :
  ∃ v, getJsonPart json keys = Normal v
       ∧ getJsonPart json (keys ++ rest) = getJsonPart v rest
       ∧ match v with
         | JUndefined => getJsonPart json (keys ++ rest) = Normal JUndefined
         | _ => True
         end.
Proof.
  destruct (getJsonPart_total keys json) as [v Hv].
  exists v. split; [done|]. rewrite (getJsonPart_app _ rest _ _ Hv).
  split; [done|]. destruct v; try done. by destruct rest.
Qed.

(** ** What [set] does to the configuration *)

Lemma mutate_at_throws f keys : ∀ json obj e,
  getJsonPart json keys = Normal obj → is_container obj = true →
  f obj = Throw e → mutate_at json keys f = Throw e.
Proof.
  induction keys as [|key keys IH]; intros json obj e Hget Hobj Hf.
  - injection Hget as ->. done.
  - destruct (resolves_cons _ _ _ _ Hget Hobj) as (Hc & child & Hown & Hcc & Hchild).
    cbn [mutate_at]. rewrite (Get_truthy _ _ (container_truthy _ Hc)), Hown.
    cbn. by rewrite (IH child obj e).
Qed.







Lemma split_cons sep c s :
  split sep (String c s) =
  if Ascii.eqb c sep then EmptyString :: split sep s
  else match split sep s with
       | h :: t => String c h :: t
       | [] => [String c EmptyString]
       end.
Proof. reflexivity. Qed.

Lemma join_split s : join_with "." (split "." s) = s.
Proof.
  induction s as [|c s IH]; [done|].
  rewrite split_cons.
  pose proof (split_nonempty "." s) as Hne.
  destruct (split "." s) as [|h t]; [done|].
  destruct (Ascii.eqb c ".") eqn:Hc.
  - apply Ascii.eqb_eq in Hc as ->.
    rewrite join_with_cons, IH. by rewrite append_empty_l, append_cons, append_empty_l.
  - destruct t as [|h' t].
    + cbn in *. by rewrite IH.
    + rewrite join_with_cons in *. by rewrite append_cons, IH.
Qed.

(** X20.  The path that [set] is given is the parent path it resolves
    followed by the key it assigns: splitting the path at the dots,
    taking the last segment off and joining the segments again with dots
    loses nothing. *)
Theorem set_path_round_trip (arg0 : string) :
  join_with "." ((pop (split "." arg0)).2 ++ [(pop (split "." arg0)).1]) = arg0.
Proof. rewrite <- pop_split. apply join_split. Qed.

Lemma for_of_updatePackage names w :
  ∃ outcome, for_of names updatePackage w = (outcome, w).
Proof.
  destruct names as [|name names]; [by eexists|].
  cbn [for_of]. unfold mbind, M_bind.
  destruct (updatePackage_outcome name w) as [e ->]. by eexists.
Qed.

Lemma COMMANDS_SET_outcome args config w old outcome w1 :
  is_json config → disk w !! CONFIG = Some (File old) →
  COMMANDS_SET args config w = (outcome, w1) →
  (∀ path, path ≠ CONFIG → disk w1 !! path = disk w !! path)
  ∧ (disk w1 = disk w
     ∨ ∃ config', is_container config' = true ∧ loaded CONFIG (disk w1) = persisted config').
Proof.
  intros Hj Hold. unfold COMMANDS_SET.
  destruct args as [|arg0 [|arg1 rest]]; try (intros [= <- <-]; by auto).
  destruct (pop (split "." arg0)) as [key keys].
  destruct (getJsonPart_total keys config) as [obj Hget].
  unfold mbind, M_bind, lift. rewrite Hget, target_check.
  destruct (is_container obj) eqn:Hobj; cbn [negb]; [|intros [= <- <-]; by auto].
  fold (assigned_value arg1).
  destruct (PutValue obj key (assigned_value arg1)) as [obj'|e] eqn:Hput.
  - pose proof (PutValue_container _ _ _ _ Hobj Hput) as Hobj'.
    destruct (mutate_at_resolves (λ o, PutValue o key (assigned_value arg1))
                _ config obj obj' Hget Hobj Hput Hobj') as (config' & -> & Hc' & _).
    destruct (stringify_container _ Hc') as [text' Hs].
    rewrite (writeJSON_config _ old _ text') by done.
    intros [= <- <-]. cbn [set_disk disk]. split.
    + intros path Hne. by rewrite lookup_insert_ne.
    + right. exists config'. split; [done|].
      unfold loaded. by rewrite lookup_insert_eq, (parse_stringify _ _ Hs).
  - rewrite (mutate_at_throws _ _ _ _ _ Hget Hobj Hput). intros [= <- <-]. by auto.
Qed.

Lemma COMMANDS_UPDATE_outcome args config w outcome w1 :
  COMMANDS_UPDATE args config w = (outcome, w1) → disk w1 = disk w.
Proof.
  unfold COMMANDS_UPDATE, mbind, M_bind, lift.
  destruct (Get config "packages") as [p|e]; [|by intros [= <- <-]].
  destruct (Array_map _ _) as [names|e]; [|by intros [= <- <-]].
  destruct (for_of_updatePackage names w) as [outcome' ->].
  by intros [= <- <-].
Qed.

Lemma COMMANDS_GET_outcome args config w outcome w1 :
  COMMANDS_GET args config w = (outcome, w1) → disk w1 = disk w.
Proof.
  unfold COMMANDS_GET, mbind, M_bind, lift.
  destruct (getJsonPart config _) as [part|e]; by intros [= <- <-].
Qed.

(** X21.  No invocation spoils the configuration.  When [config.json]
    holds an object or an array, then after any invocation, with any
    arguments and whether it returns or throws, [config.json] still holds
    an object or an array, and every other path of the file system is as
    the start-up left it. *)
Theorem config_stays_valid (args : list string) (w w1 : world) (text : string)
    (config : value) (outcome : completion unit) :
  disk w !! CONFIG = Some (File text) →
  JSON.parse text = Some config →
  is_container config = true →
  npmStatistic args w = (outcome, w1) →
  is_container (loaded CONFIG (disk w1)) = true
  ∧ ∀ path, path ≠ CONFIG → disk w1 !! path = disk (booted w) !! path.
Proof.
  intros Hfile Hparse Hc.
  destruct (booted_with_config w text Hfile) as (Hf & _).
  pose proof (JSON_parse_json _ _ Hparse) as Hj.
  assert (loaded CONFIG (disk (booted w)) = config) as Hload
    by (by rewrite (loaded_with_config _ text), Hparse).
  assert (∀ w', disk w' = disk (booted w) →
            is_container (loaded CONFIG (disk w')) = true
            ∧ ∀ path, path ≠ CONFIG → disk w' !! path = disk (booted w) !! path) as Hsame.
  { intros w' ->. by rewrite Hload. }
  rewrite npmStatistic_run. cbn zeta. rewrite Hload, (container_truthy _ Hc). cbn [negb].
  destruct (COMMANDS !! _) as [handler|] eqn:Hcmd; [|intros [= <- <-]; by apply Hsame].
  destruct (COMMANDS_inv _ _ Hcmd) as [->|[->| ->]]; intros Hrun.
  - apply Hsame. by eapply COMMANDS_GET_outcome.
  - destruct (COMMANDS_SET_outcome _ _ _ _ _ _ Hj Hf Hrun)
      as (Hframe & [Hd|(config' & Hc' & Hl)]); [by apply Hsame|].
    split; [|done]. rewrite Hl. by apply persisted_container.
  - apply Hsame. by eapply COMMANDS_UPDATE_outcome.
Qed.

Lemma config_stays_valid_witness :
  is_container
    (loaded CONFIG (disk (npmStatistic [SET; "a.0"; "true"]
                            (world_with_config sample_config_text)).2)) = true
  ∧ ∀ path, path ≠ CONFIG →
      disk (npmStatistic [SET; "a.0"; "true"] (world_with_config sample_config_text)).2
        !! path
      = disk (booted (world_with_config sample_config_text)) !! path.
Proof.
  apply (config_stays_valid [SET; "a.0"; "true"] (world_with_config sample_config_text) _
           sample_config_text sample_config
           (npmStatistic [SET; "a.0"; "true"] (world_with_config sample_config_text)).1).
  - reflexivity.
  - vm_compute. reflexivity.
  - reflexivity.
  - vm_compute. reflexivity.
Defined.

Lemma booted_config w : is_Some (disk (booted w) !! CONFIG).
Proof.
  unfold booted. destruct (disk w !! CONFIG) as [n|] eqn:Hc.
  - destruct (disk w !! STATS); [by rewrite Hc|].
    cbn [set_disk disk]. rewrite lookup_insert_ne by done. by rewrite Hc.
  - cbn [disk]. rewrite lookup_insert_ne by done.
    destruct (disk w !! STATS); cbn [set_disk disk];
      rewrite ?(lookup_insert_ne _ STATS CONFIG) by done;
      rewrite lookup_insert_eq; eauto.
Qed.

Lemma loaded_truthy name (d : gmap string node) :
  ToBoolean (loaded name d) = true →
  ∃ text, d !! name = Some (File text) ∧ JSON.parse text = Some (loaded name d).
Proof.
  unfold loaded. destruct (d !! name) as [[text|]|]; [|done..].
  destruct (JSON.parse text) as [v|] eqn:Hparse; [|done]. by exists text.
Qed.

Lemma booted_stats_directory w :
  is_regular_file (disk w) STATS = false → disk (booted w) !! STATS = Some Directory.
Proof.
  unfold is_regular_file, booted. intros Hs.
  set (w1 := match disk w !! CONFIG with Some _ => w | None => _ end).
  assert (disk w1 !! STATS = disk w !! STATS) as Heq.
  { unfold w1. destruct (disk w !! CONFIG); [done|].
    cbn [disk]. by rewrite lookup_insert_ne. }
  rewrite Heq. destruct (disk w !! STATS) as [[text|]|] eqn:Hd; [done| |].
  - by rewrite Heq.
  - cbn [set_disk disk]. by rewrite lookup_insert_eq.
Qed.

(** X22.  After any invocation, whatever the arguments and the outcome,
    [config.json] exists and [./stats/] is a directory, unless a regular
    file stood in the place of [./stats/] before. *)
Theorem invocation_leaves_config_and_stats (args : list string) (w w1 : world)
    (outcome : completion unit) :
  is_regular_file (disk w) STATS = false →
  npmStatistic args w = (outcome, w1) →
  is_Some (disk w1 !! CONFIG) ∧ disk w1 !! STATS = Some Directory.
Proof.
  intros Hstats.
  pose proof (booted_config w) as Hc.
  pose proof (booted_stats_directory w Hstats) as Hs.
  assert (∀ w', disk w' = disk (booted w) →
            is_Some (disk w' !! CONFIG) ∧ disk w' !! STATS = Some Directory) as Hsame
    by (by intros w' ->).
  rewrite npmStatistic_run. cbn zeta.
  destruct (ToBoolean (loaded CONFIG (disk (booted w)))) eqn:Ht; cbn [negb];
    [|intros [= <- <-]; by apply Hsame].
  destruct (COMMANDS !! _) as [handler|] eqn:Hcmd; [|intros [= <- <-]; by apply Hsame].
  destruct (COMMANDS_inv _ _ Hcmd) as [->|[->| ->]]; intros Hrun.
  - apply Hsame. by eapply COMMANDS_GET_outcome.
  - destruct (loaded_truthy _ _ Ht) as (text & Hfile & Hparse).
    destruct (COMMANDS_SET_outcome _ _ _ _ _ _ (JSON_parse_json _ _ Hparse) Hfile Hrun)
      as (Hframe & [Hd|(config' & Hc' & Hl)]); [by apply Hsame|].
    split; [|by rewrite Hframe].
    apply persisted_container in Hc'. rewrite <- Hl in Hc'. unfold loaded in Hc'.
    destruct (disk w1 !! CONFIG); [eauto|done].
  - apply Hsame. by eapply COMMANDS_UPDATE_outcome.
Qed.

Lemma invocation_leaves_config_and_stats_witness :
  is_Some (disk (npmStatistic ["foo"] fresh_world).2 !! CONFIG)
  ∧ disk (npmStatistic ["foo"] fresh_world).2 !! STATS = Some Directory.
Proof.
  apply (invocation_leaves_config_and_stats ["foo"] fresh_world _
           (npmStatistic ["foo"] fresh_world).1).
  - reflexivity.
  - vm_compute. reflexivity.
Defined.


